(** * socialmedia-fastapi: the service layer over the relational store

    A shallow embedding of [models/*.py], [services/*.py] and the
    handlers of [routes/*.py] that write to the store.  The
    database reached through a [Session] is a record of five tables; a
    table is the list of its rows in the order the engine scans them, a
    row inserted last being scanned last.  Every service function takes
    the store and returns the store after its commit together with its
    Python return value.  The wall clock ([datetime.utcnow],
    [datetime.now]) is an explicit argument, in microseconds. *)

From Stdlib Require Import ZArith List String Bool Lia Permutation Sorted.
Import ListNotations.
Local Open Scope Z_scope.

(** ** models *)

Definition datetime := Z.

Definition timedelta_hours (h : Z) : Z := h * 3600 * 1000000.
Definition timedelta_minutes (m : Z) : Z := m * 60 * 1000000.
Definition timedelta_seconds (s : Z) : Z := s * 1000000.

Module User.
Record t := mk
  { id : option Z;
    clerk_user_id : string;
    name : string;
    created_at : datetime }.

Definition set_id (k : option Z) (u : t) : t :=
  mk k (clerk_user_id u) (name u) (created_at u).

Definition eq_dec (x y : t) : {x = y} + {x <> y}.
Proof.
  decide equality;
    try apply Z.eq_dec; try apply string_dec.
  decide equality; apply Z.eq_dec.
Defined.
End User.

Module Friend.
Record t := mk
  { id : option Z;
    user_id : Z;
    friend_id : Z;
    status : string }.

Definition set_id (k : option Z) (f : t) : t :=
  mk k (user_id f) (friend_id f) (status f).

Definition set_status (st : string) (f : t) : t :=
  mk (id f) (user_id f) (friend_id f) st.

(** [Friend(user_id=..., friend_id=..., status=...)]: no key yet. *)
Definition new (user_id friend_id : Z) (status : string) : t :=
  mk None user_id friend_id status.
End Friend.

Module Post.
Record t := mk
  { id : option Z;
    user_id : Z;
    content : string;
    media_url : option string;
    media_type : option string;
    created_at : datetime;
    updated_at : datetime }.

Definition set_id (k : option Z) (p : t) : t :=
  mk k (user_id p) (content p) (media_url p) (media_type p)
     (created_at p) (updated_at p).
End Post.

Module Comment.
Record t := mk
  { id : option Z;
    post_id : Z;
    user_id : Z;
    parent_comment_id : option Z;
    content : string;
    created_at : datetime }.

Definition set_id (k : option Z) (c : t) : t :=
  mk k (post_id c) (user_id c) (parent_comment_id c) (content c)
     (created_at c).
End Comment.

Module Story.
Record t := mk
  { id : option Z;
    user_id : Z;
    media_url : string;
    media_type : string;
    created_at : datetime;
    expires_at : datetime }.

Definition set_id (k : option Z) (s : t) : t :=
  mk k (user_id s) (media_url s) (media_type s) (created_at s)
     (expires_at s).

(** [Story(user_id=..., media_url=..., media_type=...)] as the route
    builds it: the two [default_factory] lambdas run one after the
    other, each reading the clock; [now_created] is the reading of the
    first and [now_expires] that of the second. *)
Definition new (now_created now_expires : datetime)
    (user_id : Z) (media_url media_type : string) : t :=
  mk None user_id media_url media_type
     now_created (now_expires + timedelta_hours 24).
End Story.

(** ** The relational store *)

Section Table.
Variable row : Type.
Variable pk : row -> option Z.
Variable set_pk : option Z -> row -> row.

(** [WHERE id = k]; a NULL key matches nothing. *)
Definition pk_is (k : Z) (r : row) : bool :=
  match pk r with
  | Some i => i =? k
  | None => false
  end.

Definition keys (t : list row) : list Z :=
  flat_map (fun r => match pk r with Some i => [i] | None => [] end) t.

(** The key the engine generates for an INTEGER PRIMARY KEY column:
    one more than the largest key in the table, 1 in an empty table. *)
Definition next_pk (t : list row) : Z :=
  match keys t with
  | [] => 1
  | k :: ks => 1 + fold_right Z.max k ks
  end.

(** [session.add(r); session.commit(); session.refresh(r)] of a new
    object: the refreshed object and the table.  [None] is the
    IntegrityError of a key that is already taken. *)
Definition insert (r : row) (t : list row) : option (row * list row) :=
  match pk r with
  | None =>
      let r' := set_pk (Some (next_pk t)) r in Some (r', t ++ [r'])
  | Some k =>
      if existsb (pk_is k) t then None else Some (r, t ++ [r])
  end.

(** [session.get(Model, k)] *)
Definition get (k : Z) (t : list row) : option row := find (pk_is k) t.

(** [session.delete(r); session.commit()]: DELETE ... WHERE id = r.id *)
Definition delete (r : row) (t : list row) : list row :=
  match pk r with
  | Some k => filter (fun x => negb (pk_is k x)) t
  | None => t
  end.

(** [session.add(r'); session.commit()] of a loaded object [r] whose
    non-key attributes were overwritten, giving [r']:
    UPDATE ... WHERE id = r.id *)
Definition update (r r' : row) (t : list row) : list row :=
  match pk r with
  | Some k => map (fun x => if pk_is k x then r' else x) t
  | None => t
  end.

(** The primary-key constraint: keys are present and pairwise distinct. *)
Fixpoint pk_ok (t : list row) : bool :=
  match t with
  | [] => true
  | r :: t' =>
      match pk r with
      | Some k => negb (existsb (pk_is k) t') && pk_ok t'
      | None => false
      end
  end.
End Table.

Arguments pk_is {row} pk k r.
Arguments keys {row} pk t.
Arguments next_pk {row} pk t.
Arguments insert {row} pk set_pk r t.
Arguments get {row} pk k t.
Arguments delete {row} pk r t.
Arguments update {row} pk r r' t.
Arguments pk_ok {row} pk t.

Record Session := mkSession
  { users : list User.t;
    friends : list Friend.t;
    posts : list Post.t;
    comments : list Comment.t;
    stories : list Story.t }.

Definition empty_db : Session := mkSession [] [] [] [] [].

Definition set_users (l : list User.t) (s : Session) : Session :=
  mkSession l (friends s) (posts s) (comments s) (stories s).
Definition set_friends (l : list Friend.t) (s : Session) : Session :=
  mkSession (users s) l (posts s) (comments s) (stories s).
Definition set_posts (l : list Post.t) (s : Session) : Session :=
  mkSession (users s) (friends s) l (comments s) (stories s).
Definition set_comments (l : list Comment.t) (s : Session) : Session :=
  mkSession (users s) (friends s) (posts s) l (stories s).
Definition set_stories (l : list Story.t) (s : Session) : Session :=
  mkSession (users s) (friends s) (posts s) (comments s) l.

(** The schema's constraints: a primary key per table and the UNIQUE
    column [User.clerk_user_id]. *)
Fixpoint unique_strings (l : list string) : bool :=
  match l with
  | [] => true
  | x :: l' => negb (existsb (String.eqb x) l') && unique_strings l'
  end.

Definition constraints_ok (s : Session) : bool :=
  pk_ok User.id (users s) && unique_strings (map User.clerk_user_id (users s))
  && pk_ok Friend.id (friends s)
  && pk_ok Post.id (posts s)
  && pk_ok Comment.id (comments s)
  && pk_ok Story.id (stories s).

(** What a service call does: it returns [v], the committed store being
    [db], or an exception escapes it and nothing is committed. *)
Inductive outcome (A : Type) : Type :=
| Return (db : Session) (v : A)
| Raise.

Arguments Return {A} db v.
Arguments Raise {A}.

Definition db_after {A : Type} (o : outcome A) (s : Session) : Session :=
  match o with
  | Return db _ => db
  | Raise => s
  end.

Definition accepted : string := "accepted".
Definition pending : string := "pending".
Definition blocked : string := "blocked".

(** The foreign keys the models declare from the Friend table to the
    User table, each given by its referencing column.  [Friend.user_id]
    and [Friend.friend_id] are plain integer fields: there is none. *)
Definition friend_user_foreign_keys : list (Friend.t -> Z) := [].

(** [select(User).join(Friend)] names no ON clause.  The ORM takes it
    from the one foreign key between the two tables; when there is none,
    or more than one, the statement cannot be compiled and
    [session.exec] raises InvalidRequestError. *)
Definition join_user_friend : option (User.t -> Friend.t -> bool) :=
  match friend_user_foreign_keys with
  | [column] => Some (fun u f => pk_is User.id (column f) u)
  | _ => None
  end.

(** ** services/user_service.py *)

Module user_service.

Definition get_user_by_id (s : Session) (user_id : Z) : option User.t :=
  find (pk_is User.id user_id) (users s).

Definition clerk_taken (c : string) (l : list User.t) : bool :=
  existsb (fun u => String.eqb (User.clerk_user_id u) c) l.

Definition create_user (s : Session) (user : User.t) : outcome User.t :=
  if clerk_taken (User.clerk_user_id user) (users s) then Raise
  else
    match insert User.id User.set_id user (users s) with
    | Some (user', l) => Return (set_users l s) user'
    | None => Raise
    end.

(** [updated_user.dict(exclude_unset=True)]: the fields that were set. *)
Record UserUpdate := mkUserUpdate
  { upd_id : option (option Z);
    upd_clerk_user_id : option string;
    upd_name : option string;
    upd_created_at : option datetime }.

Definition setattrs (p : UserUpdate) (u : User.t) : User.t :=
  User.mk
    (match upd_id p with Some v => v | None => User.id u end)
    (match upd_clerk_user_id p with
     | Some v => v | None => User.clerk_user_id u end)
    (match upd_name p with Some v => v | None => User.name u end)
    (match upd_created_at p with
     | Some v => v | None => User.created_at u end).

Definition update_user (s : Session) (user_id : Z) (updated_user : UserUpdate)
  : outcome (option User.t) :=
  match get_user_by_id s user_id with
  | None => Return s None
  | Some existing_user =>
      let u' := setattrs updated_user existing_user in
      let others :=
        filter (fun x => negb (pk_is User.id user_id x)) (users s) in
      match User.id u' with
      | None => Raise
      | Some k' =>
          if existsb (pk_is User.id k') others
             || clerk_taken (User.clerk_user_id u') others
          then Raise
          else Return (set_users (update User.id existing_user u' (users s)) s)
                      (Some u')
      end
  end.

Definition delete_user (s : Session) (user_id : Z) : outcome bool :=
  match get_user_by_id s user_id with
  | None => Return s false
  | Some existing_user =>
      Return (set_users (delete User.id existing_user (users s)) s) true
  end.

(** The conditions of [get_friends]' where-clause on a User row and a
    Friend row. *)
Definition get_friends_where (user_id : Z) (u : User.t) (f : Friend.t)
  : bool :=
  (Friend.user_id f =? user_id)
  && pk_is User.id (Friend.friend_id f) u
  && String.eqb (Friend.status f) accepted.

(** [select(User).distinct().join(Friend).where(c1, c2, c3)]: the pairs
    of a User row and a Friend row that the ON clause of the join and
    the three conditions select, projected on the User row, duplicates
    removed; the statement is compiled when [session.exec] runs it. *)
Definition get_friends (s : Session) (user_id : Z) : outcome (list User.t) :=
  match join_user_friend with
  | None => Raise
  | Some onclause =>
      Return s
        (nodup User.eq_dec
           (flat_map
              (fun u =>
                 flat_map
                   (fun f =>
                      if onclause u f && get_friends_where user_id u f
                      then [u] else [])
                   (friends s))
              (users s)))
  end.

Definition get_pending_where (user_id : Z) (u : User.t) (f : Friend.t)
  : bool :=
  (Friend.friend_id f =? user_id)
  && String.eqb (Friend.status f) pending
  && pk_is User.id (Friend.user_id f) u.

Definition get_pending_friend_requests (s : Session) (user_id : Z)
  : outcome (list User.t) :=
  match join_user_friend with
  | None => Raise
  | Some onclause =>
      Return s
        (nodup User.eq_dec
           (flat_map
              (fun u =>
                 flat_map
                   (fun f =>
                      if onclause u f && get_pending_where user_id u f
                      then [u] else [])
                   (friends s))
              (users s)))
  end.

Definition accept_friend_request (s : Session) (user_id friend_id : Z)
  : outcome bool :=
  match find (fun f => (Friend.user_id f =? friend_id)
                       && (Friend.friend_id f =? user_id)
                       && String.eqb (Friend.status f) pending)
             (friends s) with
  | None => Return s false
  | Some friend_request =>
      let friend_request' := Friend.set_status accepted friend_request in
      Return (set_friends
                (update Friend.id friend_request friend_request' (friends s))
                s)
             true
  end.

Definition reject_friend_request (s : Session) (user_id friend_id : Z)
  : outcome bool :=
  match find (fun f => (Friend.user_id f =? friend_id)
                       && (Friend.friend_id f =? user_id)
                       && String.eqb (Friend.status f) pending)
             (friends s) with
  | None => Return s false
  | Some friend_request =>
      Return (set_friends (delete Friend.id friend_request (friends s)) s)
             true
  end.

Definition send_friend_request (s : Session) (user_id friend_id : Z)
  : outcome bool :=
  match find (fun f => (Friend.user_id f =? user_id)
                       && (Friend.friend_id f =? friend_id))
             (friends s) with
  | Some existing_request => Return s false
  | None =>
      let new_request := Friend.new user_id friend_id pending in
      match insert Friend.id Friend.set_id new_request (friends s) with
      | Some (_, l) => Return (set_friends l s) true
      | None => Raise
      end
  end.

Definition remove_friend (s : Session) (user_id friend_id : Z)
  : outcome bool :=
  match find (fun f => (((Friend.user_id f =? user_id)
                         && (Friend.friend_id f =? friend_id))
                        || ((Friend.user_id f =? friend_id)
                            && (Friend.friend_id f =? user_id)))
                       && String.eqb (Friend.status f) accepted)
             (friends s) with
  | None => Return s false
  | Some friendship =>
      Return (set_friends (delete Friend.id friendship (friends s)) s) true
  end.

(** [select(User).offset(skip).limit(limit)], with the engine's reading
    of out-of-range values: a negative OFFSET counts as 0 and a negative
    LIMIT as no limit. *)
Definition list_users (s : Session) (skip limit : Z) : list User.t :=
  let rest := skipn (Z.to_nat skip) (users s) in
  if limit <? 0 then rest else firstn (Z.to_nat limit) rest.

(** [name_col.ilike(pattern)] is the engine's case-insensitive LIKE; it is
    the parameter [ilike], applied to the column value and the pattern.
    [if name:] is false for [None] and for the empty string. *)
Definition get_non_friends (ilike : string -> string -> bool) (s : Session)
    (name : option string) : list User.t :=
  match name with
  | None => users s
  | Some n =>
      if String.eqb n "" then users s
      else filter (fun u => ilike (User.name u) ("%" ++ n ++ "%")%string)
                  (users s)
  end.

End user_service.

(** ** ORDER BY

    [order_by_desc key] and [order_by_asc key] sort on an integer
    column; rows with equal keys keep their scan order. *)

Section OrderBy.
Variable row : Type.
Variable key : row -> Z.

Fixpoint place_desc (x : row) (l : list row) : list row :=
  match l with
  | [] => [x]
  | y :: l' => if key y <=? key x then x :: l else y :: place_desc x l'
  end.

Fixpoint place_asc (x : row) (l : list row) : list row :=
  match l with
  | [] => [x]
  | y :: l' => if key x <=? key y then x :: l else y :: place_asc x l'
  end.

Definition order_by_desc (l : list row) : list row :=
  fold_right place_desc [] l.

Definition order_by_asc (l : list row) : list row :=
  fold_right place_asc [] l.
End OrderBy.

Arguments order_by_desc {row} key l.
Arguments order_by_asc {row} key l.

(** [col(c).in_(ids)] *)
Definition in_ (x : Z) (ids : list Z) : bool := existsb (Z.eqb x) ids.

(** ** services/post_service.py *)

Module post_service.

Definition create_post (s : Session) (post : Post.t) : outcome Post.t :=
  match insert Post.id Post.set_id post (posts s) with
  | Some (post', l) => Return (set_posts l s) post'
  | None => Raise
  end.

Definition get_posts_for_user (s : Session) (user_id : Z) : list Post.t :=
  order_by_desc Post.created_at
    (filter (fun p => Post.user_id p =? user_id) (posts s)).

Definition get_timeline_posts (s : Session) (user_id : Z)
    (friend_ids : list Z) : list Post.t :=
  let allowed_user_ids := [user_id] ++ friend_ids in
  order_by_desc Post.created_at
    (filter (fun p => in_ (Post.user_id p) allowed_user_ids) (posts s)).

Definition add_comment (s : Session) (comment : Comment.t)
  : outcome Comment.t :=
  match insert Comment.id Comment.set_id comment (comments s) with
  | Some (comment', l) => Return (set_comments l s) comment'
  | None => Raise
  end.

Definition get_comments_for_post (s : Session) (post_id : Z)
  : list Comment.t :=
  order_by_asc Comment.created_at
    (filter (fun c => Comment.post_id c =? post_id) (comments s)).

Definition add_reply (s : Session) (reply : Comment.t) : outcome Comment.t :=
  match insert Comment.id Comment.set_id reply (comments s) with
  | Some (reply', l) => Return (set_comments l s) reply'
  | None => Raise
  end.

Definition get_replies_for_comment (s : Session) (comment_id : Z)
  : list Comment.t :=
  order_by_asc Comment.created_at
    (filter (fun c => match Comment.parent_comment_id c with
                      | Some k => k =? comment_id
                      | None => false
                      end)
            (comments s)).

Definition delete_post (s : Session) (post_id : Z) : outcome bool :=
  match get Post.id post_id (posts s) with
  | None => Return s false
  | Some existing_post =>
      Return (set_posts (delete Post.id existing_post (posts s)) s) true
  end.

Definition delete_comment (s : Session) (comment_id : Z) : outcome bool :=
  match get Comment.id comment_id (comments s) with
  | None => Return s false
  | Some existing_comment =>
      Return (set_comments (delete Comment.id existing_comment (comments s)) s)
             true
  end.

End post_service.

(** ** services/story_service.py *)

Module story_service.

Definition create_story (s : Session) (story : Story.t) : outcome Story.t :=
  match insert Story.id Story.set_id story (stories s) with
  | Some (story', l) => Return (set_stories l s) story'
  | None => Raise
  end.

(** [now] is the value [datetime.utcnow()] returns in the call. *)
Definition get_stories_for_user (s : Session) (now : datetime) (user_id : Z)
  : list Story.t :=
  let friend_ids :=
    map Friend.friend_id
        (filter (fun f => (Friend.user_id f =? user_id)
                          && String.eqb (Friend.status f) accepted)
                (friends s)) in
  let allowed_user_ids := [user_id] ++ friend_ids in
  filter (fun st => in_ (Story.user_id st) allowed_user_ids
                    && (now <? Story.expires_at st))
         (stories s).

End story_service.

(** ** The service layer as a transition system

    One constructor per service function that writes; the functions that
    only read leave the store as it is. *)

Inductive call : Type :=
| CreateUser (user : User.t)
| UpdateUser (user_id : Z) (updated_user : user_service.UserUpdate)
| DeleteUser (user_id : Z)
| AcceptFriendRequest (user_id friend_id : Z)
| RejectFriendRequest (user_id friend_id : Z)
| SendFriendRequest (user_id friend_id : Z)
| RemoveFriend (user_id friend_id : Z)
| CreatePost (post : Post.t)
| AddComment (comment : Comment.t)
| AddReply (reply : Comment.t)
| DeletePost (post_id : Z)
| DeleteComment (comment_id : Z)
| CreateStory (story : Story.t).

Definition run (c : call) (s : Session) : Session :=
  match c with
  | CreateUser u => db_after (user_service.create_user s u) s
  | UpdateUser k p => db_after (user_service.update_user s k p) s
  | DeleteUser k => db_after (user_service.delete_user s k) s
  | AcceptFriendRequest a b =>
      db_after (user_service.accept_friend_request s a b) s
  | RejectFriendRequest a b =>
      db_after (user_service.reject_friend_request s a b) s
  | SendFriendRequest a b =>
      db_after (user_service.send_friend_request s a b) s
  | RemoveFriend a b => db_after (user_service.remove_friend s a b) s
  | CreatePost p => db_after (post_service.create_post s p) s
  | AddComment c => db_after (post_service.add_comment s c) s
  | AddReply c => db_after (post_service.add_reply s c) s
  | DeletePost k => db_after (post_service.delete_post s k) s
  | DeleteComment k => db_after (post_service.delete_comment s k) s
  | CreateStory st => db_after (story_service.create_story s st) s
  end.

Definition run_all (cs : list call) (s : Session) : Session :=
  fold_left (fun db c => run c db) cs s.

Inductive reachable : Session -> Prop :=
| reachable_empty : reachable empty_db
| reachable_run (c : call) (s : Session) :
    reachable s -> reachable (run c s).

(** ** routes

    A handler answers with its status code and response model, or raises
    HTTPException; an exception of the service it does not catch escapes
    it.  [isoformat] is [datetime.isoformat] and [str_e] the text of the
    exception a handler caught; both are parameters. *)

Inductive http_reply (A : Type) : Type :=
| Answer (status_code : Z) (body : A)
| HTTPException (status_code : Z) (detail : string).

Arguments Answer {A} status_code body.
Arguments HTTPException {A} status_code detail.

Record ActionResponse := mkActionResponse
  { ok : bool;
    message : option string }.

Module user_route.

Record UserResponse := mkUserResponse
  { ur_id : Z;
    ur_clerk_user_id : string;
    ur_name : string;
    ur_created_at : string }.

(** The list comprehension of the two handlers below: one response per
    user whose id is not None. *)
Definition user_responses (isoformat : datetime -> string)
    (l : list User.t) : list UserResponse :=
  flat_map
    (fun u =>
       match User.id u with
       | Some k =>
           [mkUserResponse k (User.clerk_user_id u) (User.name u)
              (isoformat (User.created_at u))]
       | None => []
       end)
    l.

(** GET /users/{user_id}/friends *)
Definition get_friends (isoformat : datetime -> string) (s : Session)
    (user_id : Z) : outcome (http_reply (list UserResponse)) :=
  match user_service.get_friends s user_id with
  | Raise => Raise
  | Return db friends => Return db (Answer 200 (user_responses isoformat friends))
  end.

(** GET /users/{user_id}/friends/pending *)
Definition get_pending_friend_requests (isoformat : datetime -> string)
    (s : Session) (user_id : Z) : outcome (http_reply (list UserResponse)) :=
  match user_service.get_pending_friend_requests s user_id with
  | Raise => Raise
  | Return db pending_requests =>
      Return db (Answer 200 (user_responses isoformat pending_requests))
  end.

Definition delete_user (s : Session) (user_id : Z)
  : outcome (http_reply ActionResponse) :=
  match user_service.delete_user s user_id with
  | Raise => Raise
  | Return db ok =>
      if negb ok then Return db (HTTPException 404 "User not found")
      else Return db (Answer 200 (mkActionResponse true
                                    (Some "User deleted successfully"%string)))
  end.

Definition send_friend_request (s : Session) (user_id friend_id : Z)
  : outcome (http_reply ActionResponse) :=
  if user_id =? friend_id
  then Return s (HTTPException 400 "Cannot send friend request to yourself")
  else
    match user_service.send_friend_request s user_id friend_id with
    | Raise => Raise
    | Return db ok =>
        if negb ok
        then Return db (HTTPException 400
                          "Friend request already exists or users not found")
        else Return db (Answer 201 (mkActionResponse true
                          (Some "Friend request sent successfully"%string)))
    end.

Definition accept_friend_request (s : Session) (user_id friend_id : Z)
  : outcome (http_reply ActionResponse) :=
  match user_service.accept_friend_request s user_id friend_id with
  | Raise => Raise
  | Return db ok =>
      if negb ok then Return db (HTTPException 404 "Friend request not found")
      else Return db (Answer 200 (mkActionResponse true
                        (Some "Friend request accepted successfully"%string)))
  end.

Definition reject_friend_request (s : Session) (user_id friend_id : Z)
  : outcome (http_reply ActionResponse) :=
  match user_service.reject_friend_request s user_id friend_id with
  | Raise => Raise
  | Return db ok =>
      if negb ok then Return db (HTTPException 404 "Friend request not found")
      else Return db (Answer 200 (mkActionResponse true
                        (Some "Friend request rejected successfully"%string)))
  end.

Definition remove_friend (s : Session) (user_id friend_id : Z)
  : outcome (http_reply ActionResponse) :=
  match user_service.remove_friend s user_id friend_id with
  | Raise => Raise
  | Return db ok =>
      if negb ok then Return db (HTTPException 404 "Friendship not found")
      else Return db (Answer 200 (mkActionResponse true
                        (Some "Friend removed successfully"%string)))
  end.

End user_route.

Module post_route.

Record CommentCreate := mkCommentCreate
  { cc_content : string;
    cc_user_id : Z;
    cc_post_id : Z;
    cc_parent_comment_id : option Z }.

Record CommentResponse := mkCommentResponse
  { cr_id : Z;
    cr_content : string;
    cr_user_id : Z;
    cr_post_id : Z;
    cr_parent_comment_id : option Z;
    cr_created_at : string }.

(** The [Comment] built from [comment.model_dump()]: no key,
    [created_at] from the clock. *)
Definition comment_model (now : datetime) (c : CommentCreate) : Comment.t :=
  Comment.mk None (cc_post_id c) (cc_user_id c) (cc_parent_comment_id c)
    (cc_content c) now.

Definition comment_response (isoformat : datetime -> string)
    (c : Comment.t) : CommentResponse :=
  mkCommentResponse
    (match Comment.id c with Some k => k | None => 0 end)
    (Comment.content c) (Comment.user_id c) (Comment.post_id c)
    (Comment.parent_comment_id c) (isoformat (Comment.created_at c)).

(** POST /posts/{post_id}/comments *)
Definition add_comment (isoformat : datetime -> string) (str_e : string)
    (now : datetime) (s : Session) (post_id : Z) (comment : CommentCreate)
  : outcome (http_reply CommentResponse) :=
  match post_service.add_comment s (comment_model now comment) with
  | Return db created_comment =>
      Return db (Answer 201 (comment_response isoformat created_comment))
  | Raise =>
      Return s (HTTPException 400 ("Error adding comment: " ++ str_e)%string)
  end.

(** POST /posts/comments/{comment_id}/replies; the handler has no
    [comment_id] parameter. *)
Definition add_reply (isoformat : datetime -> string) (str_e : string)
    (now : datetime) (s : Session) (reply : CommentCreate)
  : outcome (http_reply CommentResponse) :=
  match post_service.add_reply s (comment_model now reply) with
  | Return db created_reply =>
      Return db (Answer 201 (comment_response isoformat created_reply))
  | Raise =>
      Return s (HTTPException 400 ("Error adding reply: " ++ str_e)%string)
  end.

Definition delete_post (s : Session) (post_id : Z)
  : outcome (http_reply ActionResponse) :=
  match post_service.delete_post s post_id with
  | Raise => Raise
  | Return db ok =>
      if negb ok then Return db (HTTPException 404 "Post not found")
      else Return db (Answer 200 (mkActionResponse true
                                    (Some "Post deleted successfully"%string)))
  end.

Definition delete_comment (s : Session) (comment_id : Z)
  : outcome (http_reply ActionResponse) :=
  match post_service.delete_comment s comment_id with
  | Raise => Raise
  | Return db ok =>
      if negb ok then Return db (HTTPException 404 "Comment not found")
      else Return db (Answer 200 (mkActionResponse true
                        (Some "Comment deleted successfully"%string)))
  end.

End post_route.

(** ** Predicates on stores *)

(** The direction of a Friend row. *)
Definition direction (f : Friend.t) : Z * Z :=
  (Friend.user_id f, Friend.friend_id f).

(** No two Friend rows have the same direction. *)
Definition one_row_per_direction (s : Session) : Prop :=
  NoDup (map direction (friends s)).

(** No Friend row links a user to itself. *)
Definition no_self_row (s : Session) : Prop :=
  forall f, In f (friends s) -> Friend.user_id f <> Friend.friend_id f.

(** The clause of [UserUpdate] that sets nothing. *)
Definition no_update : user_service.UserUpdate :=
  user_service.mkUserUpdate None None None None.

(** The Friend status invariant. *)
Definition status_ok (s : Session) : Prop :=
  forall f, In f (friends s) ->
            Friend.status f = pending \/ Friend.status f = accepted.

(** ** Sample stores *)

Definition alice : User.t := User.mk (Some 1) "clerk_1" "Alice" 0.
Definition bob : User.t := User.mk (Some 2) "clerk_2" "Bob" 0.

(** Two users and nothing else. *)
Definition db_two_users : Session := mkSession [alice; bob] [] [] [] [].

(** Two users, one accepted Friend row 1 -> 2. *)
Definition db_one_way : Session :=
  mkSession [alice; bob] [Friend.mk (Some 1) 1 2 accepted] [] [] [].

(** Two users, accepted Friend rows in both directions. *)
Definition db_mutual : Session :=
  mkSession [alice; bob]
    [Friend.mk (Some 1) 1 2 accepted; Friend.mk (Some 2) 2 1 accepted]
    [] [] [].

(** Five posts by four owners, and the same store with Friend rows. *)
Definition db_posts : Session :=
  mkSession [alice; bob] []
    [Post.mk (Some 1) 1 "a" None None 10 10;
     Post.mk (Some 2) 2 "b" None None 30 30;
     Post.mk (Some 3) 3 "c" None None 20 20;
     Post.mk (Some 4) 1 "d" None None 40 40;
     Post.mk (Some 5) 4 "e" None None 50 50]
    [] [].

Definition db_posts_and_friends : Session :=
  set_friends (friends db_mutual) db_posts.

(** Comments on two posts, one of them a reply to comment 1. *)
Definition db_comments : Session :=
  mkSession [alice; bob] []
    [Post.mk (Some 1) 1 "a" None None 5 5]
    [Comment.mk (Some 1) 1 2 None "first" 20;
     Comment.mk (Some 2) 2 1 None "other post" 15;
     Comment.mk (Some 3) 1 1 (Some 1) "reply" 30]
    [].

(** Alice follows Bob (accepted 1 -> 2); Bob has a live story. *)
Definition db_story : Session :=
  mkSession [alice; bob] [Friend.mk (Some 1) 1 2 accepted] [] []
    [Story.mk (Some 1) 2 "http://m/2.png" "image" 0 100].

(** * Properties *)

(** ** Tables under the primary-key constraint *)

Section TableFacts.
Variable row : Type.
Variable pk : row -> option Z.
Variable set_pk : option Z -> row -> row.
Hypothesis pk_set_pk : forall k r, pk (set_pk k r) = k.

Lemma pk_is_true (k : Z) (r : row) : pk_is pk k r = true <-> pk r = Some k.
Proof.
  unfold pk_is. destruct (pk r) as [i|].
  - rewrite Z.eqb_eq. split; congruence.
  - split; discriminate.
Qed.

Lemma pk_is_false (k : Z) (r : row) : pk_is pk k r = false <-> pk r <> Some k.
Proof.
  rewrite <- pk_is_true. destruct (pk_is pk k r); split; congruence.
Qed.

Lemma existsb_false {A : Type} (p : A -> bool) (l : list A) :
  existsb p l = false <-> forall x, In x l -> p x = false.
Proof.
  induction l as [|a l IH]; simpl.
  - split; [intros _ x []|reflexivity].
  - rewrite orb_false_iff, IH. split.
    + intros [Ha Hl] x [<-|Hx]; auto.
    + intros H. split; [apply H; now left|intros x Hx; apply H; now right].
Qed.

Lemma find_none_iff {A : Type} (p : A -> bool) (l : list A) :
  find p l = None <-> forall x, In x l -> p x = false.
Proof.
  split; [apply find_none|].
  induction l as [|a l IH]; simpl; intros H; [reflexivity|].
  rewrite (H a (or_introl eq_refl)). apply IH. intros x Hx. apply H. now right.
Qed.

Lemma find_app_last {A : Type} (p : A -> bool) (l : list A) (x : A) :
  (forall y, In y l -> p y = false) -> p x = true -> find p (l ++ [x]) = Some x.
Proof.
  induction l as [|a l IH]; simpl; intros Hl Hx.
  - now rewrite Hx.
  - rewrite (Hl a (or_introl eq_refl)). apply IH; auto.
Qed.

Lemma keys_In (t : list row) (k : Z) :
  In k (keys pk t) <-> exists r, In r t /\ pk r = Some k.
Proof.
  unfold keys. rewrite in_flat_map. split; intros [r [Hr Hk]]; exists r.
  - split; [assumption|]. destruct (pk r) as [i|]; simpl in Hk.
    + destruct Hk as [<-|[]]. reflexivity.
    + destruct Hk.
  - split; [assumption|]. rewrite Hk. now left.
Qed.

Lemma fold_max_ge (k : Z) (ks : list Z) :
  k <= fold_right Z.max k ks /\ forall x, In x ks -> x <= fold_right Z.max k ks.
Proof.
  induction ks as [|a ks [IH1 IH2]]; simpl.
  - split; [lia|intros x []].
  - split; [lia|]. intros x [<-|Hx]; [lia|]. specialize (IH2 x Hx). lia.
Qed.

(** The generated key is larger than every key of the table. *)
Lemma next_pk_above (t : list row) (r : row) (k : Z) :
  In r t -> pk r = Some k -> k < next_pk pk t.
Proof.
  intros Hr Hk. assert (Hin : In k (keys pk t)) by (apply keys_In; eauto).
  unfold next_pk. destruct (keys pk t) as [|k0 ks]; [destruct Hin|].
  destruct (fold_max_ge k0 ks) as [H1 H2].
  destruct Hin as [<-|Hin]; [lia|]. specialize (H2 k Hin). lia.
Qed.

Lemma next_pk_fresh (t : list row) :
  existsb (pk_is pk (next_pk pk t)) t = false.
Proof.
  apply existsb_false. intros x Hx. apply pk_is_false. intros Hk.
  pose proof (next_pk_above t x _ Hx Hk). lia.
Qed.

Lemma pk_ok_app_one (t : list row) (r : row) (k : Z) :
  pk r = Some k -> existsb (pk_is pk k) t = false ->
  pk_ok pk t = true -> pk_ok pk (t ++ [r]) = true.
Proof.
  intros Hk. induction t as [|a t IH]; simpl; intros Hfresh Hok.
  - now rewrite Hk.
  - apply orb_false_iff in Hfresh as [Ha Ht].
    destruct (pk a) as [i|] eqn:Hi; [|discriminate].
    apply andb_true_iff in Hok as [Hn Hok].
    rewrite IH by assumption. rewrite andb_true_r.
    rewrite existsb_app. simpl. apply negb_true_iff in Hn. rewrite Hn. simpl.
    rewrite orb_false_r. apply negb_true_iff. apply pk_is_false.
    apply pk_is_false in Ha. congruence.
Qed.

Lemma insert_pk_ok (r r' : row) (t t' : list row) :
  insert pk set_pk r t = Some (r', t') ->
  pk_ok pk t = true -> pk_ok pk t' = true.
Proof.
  unfold insert. destruct (pk r) as [k|] eqn:Hk.
  - destruct (existsb (pk_is pk k) t) eqn:He; [discriminate|].
    intros [= <- <-]. now apply pk_ok_app_one with k.
  - intros [= <- <-]. apply pk_ok_app_one with (next_pk pk t).
    + apply pk_set_pk.
    + apply next_pk_fresh.
Qed.

Lemma insert_generated (r : row) (t : list row) :
  pk r = None ->
  insert pk set_pk r t
  = Some (set_pk (Some (next_pk pk t)) r,
          t ++ [set_pk (Some (next_pk pk t)) r]).
Proof. unfold insert. now intros ->. Qed.

(** Under the constraint a key selects one row: the table splits around
    it and no other row carries the key. *)
Lemma pk_ok_split (t : list row) (r : row) :
  pk_ok pk t = true -> In r t ->
  exists k l1 l2,
    pk r = Some k /\ t = l1 ++ r :: l2 /\
    (forall x, In x l1 -> pk_is pk k x = false) /\
    (forall x, In x l2 -> pk_is pk k x = false).
Proof.
  induction t as [|a t IH]; simpl; intros Hok Hin; [destruct Hin|].
  destruct (pk a) as [i|] eqn:Hi; [|discriminate].
  apply andb_true_iff in Hok as [Hn Hok]. apply negb_true_iff in Hn.
  destruct Hin as [->|Hin].
  - exists i, [], t. repeat split; auto.
    + intros x [].
    + now apply existsb_false.
  - destruct (IH Hok Hin) as (k & l1 & l2 & Hk & -> & H1 & H2).
    exists k, (a :: l1), l2. repeat split; auto.
    intros x [<-|Hx]; [|now apply H1].
    apply pk_is_false. intros Ha.
    assert (Hr : pk_is pk i r = false).
    { apply (proj1 (existsb_false _ _) Hn). apply in_or_app. right. now left. }
    apply pk_is_false in Hr. congruence.
Qed.

Lemma filter_all {A : Type} (p : A -> bool) (l : list A) :
  (forall x, In x l -> p x = true) -> filter p l = l.
Proof.
  induction l as [|a l IH]; simpl; intros H; [reflexivity|].
  rewrite (H a (or_introl eq_refl)). f_equal. apply IH. intros x Hx. apply H.
  now right.
Qed.

(** DELETE by key removes the selected row and nothing else. *)
Lemma delete_split (t : list row) (r : row) :
  pk_ok pk t = true -> In r t ->
  exists l1 l2, t = l1 ++ r :: l2 /\ delete pk r t = l1 ++ l2.
Proof.
  intros Hok Hin.
  destruct (pk_ok_split t r Hok Hin) as (k & l1 & l2 & Hk & -> & H1 & H2).
  exists l1, l2. split; [reflexivity|]. unfold delete. rewrite Hk.
  rewrite filter_app. simpl.
  assert (Hr : pk_is pk k r = true) by now apply pk_is_true.
  rewrite Hr. simpl.
  rewrite !filter_all; auto; intros x Hx; apply negb_true_iff; auto.
Qed.

(** UPDATE by key rewrites the selected row and nothing else. *)
Lemma update_split (t : list row) (r r' : row) :
  pk_ok pk t = true -> In r t ->
  exists l1 l2, t = l1 ++ r :: l2 /\ update pk r r' t = l1 ++ r' :: l2.
Proof.
  intros Hok Hin.
  destruct (pk_ok_split t r Hok Hin) as (k & l1 & l2 & Hk & -> & H1 & H2).
  exists l1, l2. split; [reflexivity|]. unfold update. rewrite Hk.
  rewrite map_app. simpl.
  assert (Hr : pk_is pk k r = true) by now apply pk_is_true.
  rewrite Hr. f_equal; [|f_equal].
  - rewrite <- (map_id l1) at 2. apply map_ext_in. intros x Hx. now rewrite H1.
  - rewrite <- (map_id l2) at 2. apply map_ext_in. intros x Hx. now rewrite H2.
Qed.

Lemma pk_ok_remove (l1 l2 : list row) (r : row) :
  pk_ok pk (l1 ++ r :: l2) = true -> pk_ok pk (l1 ++ l2) = true.
Proof.
  induction l1 as [|a l1 IH]; simpl.
  - destruct (pk r); [|discriminate]. intros H.
    now apply andb_true_iff in H as [_ H].
  - destruct (pk a) as [i|]; [|discriminate]. intros H.
    apply andb_true_iff in H as [Hn Hok]. rewrite (IH Hok), andb_true_r.
    apply negb_true_iff in Hn. apply negb_true_iff. apply existsb_false.
    intros x Hx. apply (proj1 (existsb_false _ _) Hn).
    apply in_app_or in Hx as [Hx|Hx]; apply in_or_app; [now left|].
    right. now right.
Qed.

Lemma pk_ok_replace (l1 l2 : list row) (r r' : row) :
  pk r' = pk r ->
  pk_ok pk (l1 ++ r :: l2) = true -> pk_ok pk (l1 ++ r' :: l2) = true.
Proof.
  intros Heq. induction l1 as [|a l1 IH]; simpl.
  - now rewrite Heq.
  - destruct (pk a) as [i|]; [|discriminate]. intros H.
    apply andb_true_iff in H as [Hn Hok]. rewrite (IH Hok), andb_true_r.
    apply negb_true_iff in Hn. apply negb_true_iff. apply existsb_false.
    intros x Hx. apply in_app_or in Hx as [Hx|[<-|Hx]].
    + apply (proj1 (existsb_false _ _) Hn). apply in_or_app. now left.
    + assert (Hr : pk_is pk i r = false).
      { apply (proj1 (existsb_false _ _) Hn). apply in_or_app. right.
        now left. }
      unfold pk_is in *. now rewrite Heq.
    + apply (proj1 (existsb_false _ _) Hn). apply in_or_app. right. now right.
Qed.

End TableFacts.

(** ** Friend rows and the friend queries *)

Import user_service.

Lemma get_friends_where_true (user_id : Z) (u : User.t) (f : Friend.t) :
  get_friends_where user_id u f = true <->
  Friend.user_id f = user_id /\
  User.id u = Some (Friend.friend_id f) /\
  Friend.status f = accepted.
Proof.
  unfold get_friends_where.
  rewrite !andb_true_iff, Z.eqb_eq, String.eqb_eq, (pk_is_true _ User.id).
  tauto.
Qed.

(** The join of the two friend queries has no ON clause to run with. *)
Lemma get_friends_no_onclause (s : Session) (user_id : Z) :
  get_friends s user_id = Raise.
Proof. reflexivity. Qed.

Lemma get_pending_no_onclause (s : Session) (user_id : Z) :
  get_pending_friend_requests s user_id = Raise.
Proof. reflexivity. Qed.

Lemma send_friend_request_new (s : Session) (a b : Z) :
  (forall f, In f (friends s) ->
             ~ (Friend.user_id f = a /\ Friend.friend_id f = b)) ->
  send_friend_request s a b
  = Return (set_friends
              (friends s
               ++ [Friend.mk (Some (next_pk Friend.id (friends s))) a b pending])
              s)
           true.
Proof.
  intros Hno. unfold send_friend_request.
  replace (find _ (friends s)) with (@None Friend.t); [reflexivity|].
  symmetry. apply find_none_iff. intros f Hf.
  apply not_true_is_false. intros Hc.
  apply andb_true_iff in Hc as [H1 H2]. apply Z.eqb_eq in H1, H2.
  now apply (Hno f Hf).
Qed.

Lemma send_friend_request_dup (s : Session) (a b : Z) (f : Friend.t) :
  In f (friends s) -> Friend.user_id f = a -> Friend.friend_id f = b ->
  send_friend_request s a b = Return s false.
Proof.
  intros Hf Ha Hb. unfold send_friend_request.
  destruct (find _ (friends s)) eqn:Hfind; [reflexivity|].
  pose proof (find_none _ _ Hfind f Hf) as Hc. simpl in Hc.
  rewrite Ha, Hb, !Z.eqb_refl in Hc. discriminate.
Qed.

(** C1, on the code.  get-friends returns no list: [.join(Friend)] names
    no ON clause and the models declare no foreign key to take one from,
    so the call raises in every store and for every user.  After
    send-request(1,2) and accept(2,1) on the store of two users the
    accepted row 1 -> 2 is there and meets the where-conditions for
    user 1 with Bob's User row, and still get-friends(1) raises where
    the claim has it return Bob. *)
Theorem get_friends_raises :
  let s1 := db_after (send_friend_request db_two_users 1 2) db_two_users in
  let s2 := db_after (accept_friend_request s1 2 1) s1 in
  users s2 = [alice; bob]
  /\ friends s2 = [Friend.mk (Some 1) 1 2 accepted]
  /\ get_friends_where 1 bob (Friend.mk (Some 1) 1 2 accepted) = true
  /\ get_friends s2 1 = Raise
  /\ get_friends s2 2 = Raise
  /\ (forall s user_id, get_friends s user_id = Raise).
Proof.
  cbv zeta. do 5 (split; [reflexivity|]).
  intros s user_id. apply get_friends_no_onclause.
Qed.

(** C2. send-request(A,B) returns false, the store unchanged, if and only
    if a Friend row A->B exists, whatever its status; otherwise it
    returns true and the Friend table gains exactly one row, last, with
    a key no row had, directed A->B, status pending, every other table
    unchanged.  After a send-request(A,B) that returned true, a second
    send-request(A,B) returns false, and for A <> B send-request(B,A)
    still returns true when no row B->A existed. *)
Theorem send_friend_request_directional (s : Session) (A B : Z) :
  (send_friend_request s A B = Return s false <->
   exists f, In f (friends s) /\ Friend.user_id f = A /\ Friend.friend_id f = B)
  /\ ((forall f, In f (friends s) ->
                 ~ (Friend.user_id f = A /\ Friend.friend_id f = B)) ->
      exists k,
        (forall f, In f (friends s) -> Friend.id f <> Some k) /\
        send_friend_request s A B
        = Return (set_friends (friends s ++ [Friend.mk (Some k) A B pending]) s)
                 true)
  /\ (forall s1,
        send_friend_request s A B = Return s1 true ->
        send_friend_request s1 A B = Return s1 false /\
        (A <> B ->
         (forall f, In f (friends s) ->
                    ~ (Friend.user_id f = B /\ Friend.friend_id f = A)) ->
         exists s2, send_friend_request s1 B A = Return s2 true)).
Proof.
  assert (Hcases :
    (exists f, In f (friends s) /\ Friend.user_id f = A /\ Friend.friend_id f = B)
    \/ (forall f, In f (friends s) ->
                  ~ (Friend.user_id f = A /\ Friend.friend_id f = B))).
  { destruct (find (fun f => (Friend.user_id f =? A) && (Friend.friend_id f =? B))
                   (friends s)) as [f|] eqn:Hfind.
    - left. apply find_some in Hfind as [Hf Hc].
      apply andb_true_iff in Hc as [H1 H2]. apply Z.eqb_eq in H1, H2. eauto.
    - right. intros f Hf [H1 H2].
      pose proof (find_none _ _ Hfind f Hf) as Hc. simpl in Hc.
      rewrite H1, H2, !Z.eqb_refl in Hc. discriminate. }
  split; [|split].
  - split.
    + intros Hret. destruct Hcases as [Hex|Hno]; [assumption|].
      rewrite (send_friend_request_new s A B Hno) in Hret. discriminate.
    + intros (f & Hf & H1 & H2). now apply send_friend_request_dup with f.
  - intros Hno. exists (next_pk Friend.id (friends s)). split.
    + intros f Hf Hk. pose proof (next_pk_above _ _ _ f _ Hf Hk). lia.
    + now apply send_friend_request_new.
  - intros s1 Hret. destruct Hcases as [(f & Hf & H1 & H2)|Hno].
    { rewrite (send_friend_request_dup s A B f Hf H1 H2) in Hret.
      discriminate. }
    rewrite (send_friend_request_new s A B Hno) in Hret.
    injection Hret as <-. split.
    + eapply send_friend_request_dup with
        (f := Friend.mk (Some (next_pk Friend.id (friends s))) A B pending);
        [|reflexivity|reflexivity].
      simpl. apply in_or_app. right. now left.
    + intros Hne Hrev. eexists. apply send_friend_request_new.
      simpl. intros f Hf. apply in_app_or in Hf as [Hf|[<-|[]]].
      * now apply Hrev.
      * simpl. intros [H1 H2]. congruence.
Qed.

Example send_twice_then_reverse :
  let s1 := db_after (send_friend_request db_two_users 1 2) db_two_users in
  send_friend_request db_two_users 1 2 = Return s1 true
  /\ send_friend_request s1 1 2 = Return s1 false
  /\ friends (db_after (send_friend_request s1 2 1) s1)
     = [Friend.mk (Some 1) 1 2 pending; Friend.mk (Some 2) 2 1 pending].
Proof. repeat split. Qed.

Lemma send_friend_request_directional_witness :
  (exists k,
      (forall f, In f (friends db_one_way) -> Friend.id f <> Some k) /\
      send_friend_request db_one_way 2 1
      = Return (set_friends
                  (friends db_one_way ++ [Friend.mk (Some k) 2 1 pending])
                  db_one_way)
               true)
  /\ (exists s2,
        send_friend_request
          (db_after (send_friend_request db_two_users 1 2) db_two_users) 2 1
        = Return s2 true).
Proof.
  split.
  - apply (proj1 (proj2 (send_friend_request_directional db_one_way 2 1))).
    simpl. intros f [<-|[]]. simpl. intros [H _]. discriminate.
  - apply (proj2 (proj2 (send_friend_request_directional db_two_users 1 2))
             _ eq_refl).
    + lia.
    + simpl. tauto.
Defined.

(** The lookup shared by accept and reject: the first pending row
    directed friend_id -> user_id. *)
Lemma pending_lookup (s : Session) (user_id friend_id : Z) :
  let q := fun f => (Friend.user_id f =? friend_id)
                    && (Friend.friend_id f =? user_id)
                    && String.eqb (Friend.status f) pending in
  (exists r, find q (friends s) = Some r /\ In r (friends s) /\
             Friend.user_id r = friend_id /\ Friend.friend_id r = user_id /\
             Friend.status r = pending)
  \/ (find q (friends s) = None /\
      forall r, In r (friends s) ->
                ~ (Friend.user_id r = friend_id /\ Friend.friend_id r = user_id /\
                   Friend.status r = pending)).
Proof.
  intros q. destruct (find q (friends s)) as [r|] eqn:Hfind.
  - left. exists r. apply find_some in Hfind as [Hr Hc]. unfold q in Hc.
    apply andb_true_iff in Hc as [Hc Hst].
    apply andb_true_iff in Hc as [H1 H2].
    apply Z.eqb_eq in H1, H2. apply String.eqb_eq in Hst. auto.
  - right. split; [reflexivity|]. intros r Hr (H1 & H2 & Hst).
    pose proof (find_none _ _ Hfind r Hr) as Hc. unfold q in Hc.
    rewrite H1, H2, Hst, !Z.eqb_refl in Hc. discriminate.
Qed.

(** C3. accept(user_id, friend_id) returns true if and only if a pending
    Friend row directed friend_id -> user_id exists.  When it returns
    true, in a store that satisfies the primary-key constraint, one such
    row has its status set to accepted and every other row of every
    table is as before; when no such row exists it returns false and the
    store is unchanged. *)
Theorem accept_friend_request_pending_only (s : Session) (user_id friend_id : Z) :
  ((exists s', accept_friend_request s user_id friend_id = Return s' true) <->
   exists r, In r (friends s) /\ Friend.user_id r = friend_id /\
             Friend.friend_id r = user_id /\ Friend.status r = pending)
  /\ (forall s',
        accept_friend_request s user_id friend_id = Return s' true ->
        pk_ok Friend.id (friends s) = true ->
        exists l1 r l2,
          friends s = l1 ++ r :: l2 /\
          Friend.user_id r = friend_id /\ Friend.friend_id r = user_id /\
          Friend.status r = pending /\
          s' = set_friends (l1 ++ Friend.set_status accepted r :: l2) s)
  /\ ((forall r, In r (friends s) ->
                 ~ (Friend.user_id r = friend_id /\ Friend.friend_id r = user_id /\
                    Friend.status r = pending)) ->
      accept_friend_request s user_id friend_id = Return s false).
Proof.
  unfold accept_friend_request.
  destruct (pending_lookup s user_id friend_id)
    as [(r & -> & Hr & H1 & H2 & Hst)|[-> Hno]].
  - split; [|split].
    + split; [intros _; exists r; auto|intros _; eexists; reflexivity].
    + intros s' [= <-] Hok.
      destruct (update_split _ Friend.id (friends s) r
                  (Friend.set_status accepted r) Hok Hr)
        as (l1 & l2 & Hsplit & Hupd).
      exists l1, r, l2. rewrite Hupd. auto.
    + intros Hno. exfalso. apply (Hno r Hr). auto.
  - split; [|split].
    + split; [intros [s' [=]]|].
      intros (r & Hr & H1 & H2 & Hst). exfalso. apply (Hno r Hr). auto.
    + intros s' [=].
    + reflexivity.
Qed.

Example accept_flips_pending_row :
  let s := mkSession [alice; bob]
             [Friend.mk (Some 1) 2 1 accepted; Friend.mk (Some 2) 2 1 pending;
              Friend.mk (Some 3) 1 2 pending] [] [] [] in
  accept_friend_request s 1 2
  = Return (set_friends
              [Friend.mk (Some 1) 2 1 accepted; Friend.mk (Some 2) 2 1 accepted;
               Friend.mk (Some 3) 1 2 pending] s) true
  /\ accept_friend_request db_one_way 2 1 = Return db_one_way false.
Proof. split; reflexivity. Qed.

Lemma accept_friend_request_pending_only_witness :
  let s := db_after (send_friend_request db_two_users 1 2) db_two_users in
  (exists l1 r l2,
      friends s = l1 ++ r :: l2 /\
      Friend.user_id r = 1 /\ Friend.friend_id r = 2 /\
      Friend.status r = pending /\
      set_friends [Friend.mk (Some 1) 1 2 accepted] s
      = set_friends (l1 ++ Friend.set_status accepted r :: l2) s)
  /\ accept_friend_request db_one_way 2 1 = Return db_one_way false.
Proof.
  split.
  - apply (proj1 (proj2 (accept_friend_request_pending_only
                           (db_after (send_friend_request db_two_users 1 2)
                                     db_two_users) 2 1)));
      reflexivity.
  - apply (proj2 (proj2 (accept_friend_request_pending_only db_one_way 2 1))).
    simpl. intros r [<-|[]]. simpl. intros (_ & _ & H). discriminate.
Defined.

(** ** Stories *)

Import story_service.

Lemma in_true (x : Z) (ids : list Z) : in_ x ids = true <-> In x ids.
Proof.
  unfold in_. rewrite existsb_exists. split.
  - intros (y & Hy & Heq). apply Z.eqb_eq in Heq. now subst.
  - intros H. exists x. split; [assumption|apply Z.eqb_refl].
Qed.

Lemma accepted_targets_In (s : Session) (user_id v : Z) :
  In v (map Friend.friend_id
          (filter (fun f => (Friend.user_id f =? user_id)
                            && String.eqb (Friend.status f) accepted)
                  (friends s)))
  <-> exists f, In f (friends s) /\ Friend.user_id f = user_id /\
                Friend.friend_id f = v /\ Friend.status f = accepted.
Proof.
  rewrite in_map_iff. split.
  - intros (f & Hid & Hf). apply filter_In in Hf as [Hf Hc].
    apply andb_true_iff in Hc as [H1 H2]. apply Z.eqb_eq in H1.
    apply String.eqb_eq in H2. exists f. auto.
  - intros (f & Hf & H1 & H2 & H3). exists f. split; [assumption|].
    apply filter_In. split; [assumption|].
    apply andb_true_iff. split; [now apply Z.eqb_eq|now apply String.eqb_eq].
Qed.

Lemma get_stories_for_user_filter (s : Session) (now : datetime)
    (user_id : Z) :
  exists visible : Story.t -> bool,
    get_stories_for_user s now user_id = filter visible (stories s) /\
    forall st,
      visible st = true <->
      (Story.user_id st = user_id \/
       exists f, In f (friends s) /\ Friend.user_id f = user_id /\
                 Friend.friend_id f = Story.user_id st /\
                 Friend.status f = accepted) /\
      now < Story.expires_at st.
Proof.
  eexists. split; [reflexivity|]. intros st. cbv beta.
  rewrite andb_true_iff, Z.ltb_lt, in_true. simpl.
  rewrite accepted_targets_In. intuition auto.
Qed.

Lemma get_stories_for_user_In (s : Session) (now : datetime) (user_id : Z)
    (st : Story.t) :
  In st (get_stories_for_user s now user_id) <->
  In st (stories s) /\
  (Story.user_id st = user_id \/
   exists f, In f (friends s) /\ Friend.user_id f = user_id /\
             Friend.friend_id f = Story.user_id st /\
             Friend.status f = accepted) /\
  now < Story.expires_at st.
Proof.
  destruct (get_stories_for_user_filter s now user_id) as (v & -> & Hv).
  now rewrite filter_In, Hv.
Qed.

Lemma stories_append_only (c : call) (s : Session) :
  exists l, stories (run c s) = stories s ++ l.
Proof.
  assert (Hsame : exists l, stories s = stories s ++ l)
    by (exists []; now rewrite app_nil_r).
  destruct c; simpl; try exact Hsame.
  - unfold user_service.create_user.
    destruct (user_service.clerk_taken _ _); [exact Hsame|].
    destruct (insert _ _ _ _) as [[? ?]|]; exact Hsame.
  - unfold user_service.update_user.
    destruct (user_service.get_user_by_id _ _); [|exact Hsame].
    destruct (User.id _); [|exact Hsame].
    destruct (_ || _); exact Hsame.
  - unfold user_service.delete_user.
    destruct (user_service.get_user_by_id _ _); exact Hsame.
  - unfold user_service.accept_friend_request.
    destruct (find _ _); exact Hsame.
  - unfold user_service.reject_friend_request.
    destruct (find _ _); exact Hsame.
  - unfold user_service.send_friend_request.
    destruct (find _ _); [exact Hsame|].
    destruct (insert _ _ _ _) as [[? ?]|]; exact Hsame.
  - unfold user_service.remove_friend.
    destruct (find _ _); exact Hsame.
  - unfold post_service.create_post.
    destruct (insert _ _ _ _) as [[? ?]|]; exact Hsame.
  - unfold post_service.add_comment.
    destruct (insert _ _ _ _) as [[? ?]|]; exact Hsame.
  - unfold post_service.add_reply.
    destruct (insert _ _ _ _) as [[? ?]|]; exact Hsame.
  - unfold post_service.delete_post.
    destruct (get _ _ _); exact Hsame.
  - unfold post_service.delete_comment.
    destruct (get _ _ _); exact Hsame.
  - unfold create_story, insert.
    destruct (Story.id story) as [k|].
    + destruct (existsb _ _); [exact Hsame|]. simpl. eauto.
    + simpl. eauto.
Qed.

(** C4, as stated, fails: the expiry is not the created timestamp plus
    24 hours but the second clock reading of the constructor plus 24
    hours.  A story whose constructor read the clock at 0 for created
    and two seconds later for its expiry is stored with an expiry other
    than created + 24h and is still returned to its owner at
    created + 24h00m01s. *)
Lemma stories_created_plus_24h_counterexample :
  let T := 0 in
  let story :=
    Story.new T (T + timedelta_seconds 2) 1 "http://m/1.png" "image" in
  exists s' stored,
    create_story db_one_way story = Return s' stored /\
    Story.created_at stored = T /\
    Story.expires_at stored <> Story.created_at stored + timedelta_hours 24 /\
    In stored
       (get_stories_for_user s'
          (T + timedelta_hours 24 + timedelta_seconds 1) 1).
Proof.
  cbv zeta. eexists. eexists. split; [reflexivity|].
  split; [reflexivity|]. split; [discriminate|]. now left.
Qed.

(** C4, amended.  list-visible-stories(user_id) at query time [now]
    returns exactly the Story rows, in table order, whose owner is
    user_id or some v with an accepted Friend row user_id -> v, and
    whose expiry timestamp is strictly greater than [now].  The expiry
    of a story built with the model's defaults is fixed at creation as
    the clock reading T' taken for it plus 24 hours, the created
    timestamp being the reading T taken just before, and no service call
    rewrites a stored story.  The story is returned to its owner at
    exactly the times before T' + 24h; so when T <= T' it is returned at
    T+1h and at T+23h59m, and when moreover T' <= T + 1s it is not
    returned at T+24h00m01s. *)
Theorem stories_visible_until_expiry (s : Session) (now : datetime)
    (user_id : Z) :
  (exists visible : Story.t -> bool,
      get_stories_for_user s now user_id = filter visible (stories s) /\
      forall st,
        visible st = true <->
        (Story.user_id st = user_id \/
         exists f, In f (friends s) /\ Friend.user_id f = user_id /\
                   Friend.friend_id f = Story.user_id st /\
                   Friend.status f = accepted) /\
        now < Story.expires_at st)
  /\ (forall c, exists l, stories (run c s) = stories s ++ l)
  /\ (forall (T T' : datetime) (media_url media_type : string),
        exists s' story,
          create_story s (Story.new T T' user_id media_url media_type)
          = Return s' story /\
          Story.created_at story = T /\
          Story.expires_at story = T' + timedelta_hours 24 /\
          (forall t, In story (get_stories_for_user s' t user_id) <->
                     t < T' + timedelta_hours 24) /\
          (T <= T' ->
           In story (get_stories_for_user s' (T + timedelta_hours 1) user_id) /\
           In story (get_stories_for_user s'
                       (T + timedelta_hours 23 + timedelta_minutes 59)
                       user_id)) /\
          (T' <= T + timedelta_seconds 1 ->
           ~ In story (get_stories_for_user s'
                         (T + timedelta_hours 24 + timedelta_seconds 1)
                         user_id))).
Proof.
  split; [|split].
  - apply get_stories_for_user_filter.
  - intros c. apply stories_append_only.
  - intros T T' media_url media_type.
    unfold create_story. rewrite insert_generated by reflexivity.
    eexists. eexists. split; [reflexivity|].
    split; [reflexivity|]. split; [reflexivity|].
    assert (Hvis : forall t,
      In (Story.set_id (Some (next_pk Story.id (stories s)))
            (Story.new T T' user_id media_url media_type))
         (get_stories_for_user
            (set_stories
               (stories s
                ++ [Story.set_id (Some (next_pk Story.id (stories s)))
                      (Story.new T T' user_id media_url media_type)]) s)
            t user_id)
      <-> t < T' + timedelta_hours 24).
    { intros t. rewrite get_stories_for_user_In. simpl. split.
      - now intros (_ & _ & H).
      - intros H. split; [apply in_or_app; right; now left|]. auto. }
    split; [exact Hvis|].
    unfold timedelta_hours, timedelta_minutes, timedelta_seconds in *.
    split.
    + intros Hle. split; apply Hvis; lia.
    + intros Hskew Hin. apply Hvis in Hin. lia.
Qed.

Example story_lifetime :
  let st := Story.new 0 0 1 "http://m/1.png" "image" in
  let s := db_after (create_story db_one_way st) db_one_way in
  let stored := Story.mk (Some 1) 1 "http://m/1.png" "image" 0 86400000000 in
  stories s = [stored]
  /\ get_stories_for_user s (timedelta_hours 1) 1 = [stored]
  /\ get_stories_for_user s (timedelta_hours 23 + timedelta_minutes 59) 1
     = [stored]
  /\ get_stories_for_user s (timedelta_hours 24) 1 = []
  /\ get_stories_for_user s (timedelta_hours 24 + timedelta_seconds 1) 1 = []
  /\ get_stories_for_user s (timedelta_hours 1) 2 = [].
Proof. repeat split. Qed.

Lemma stories_visible_until_expiry_witness :
  exists s' story,
    create_story db_one_way (Story.new 0 0 1 "http://m/1.png" "image")
    = Return s' story /\
    In story (get_stories_for_user s' (0 + timedelta_hours 1) 1) /\
    In story (get_stories_for_user s'
                (0 + timedelta_hours 23 + timedelta_minutes 59) 1) /\
    ~ In story (get_stories_for_user s'
                  (0 + timedelta_hours 24 + timedelta_seconds 1) 1).
Proof.
  destruct (proj2 (proj2 (stories_visible_until_expiry db_one_way 0 1))
              0 0 "http://m/1.png"%string "image"%string)
    as (s' & story & Hret & _ & _ & _ & Hin & Hout).
  exists s', story. split; [exact Hret|].
  split; [apply Hin; lia|]. split; [apply Hin; lia|].
  apply Hout. vm_compute. discriminate.
Defined.

(** ** Removing a friend *)

Lemma accepted_lookup (s : Session) (user_id friend_id : Z) :
  let q := fun f => (((Friend.user_id f =? user_id)
                      && (Friend.friend_id f =? friend_id))
                     || ((Friend.user_id f =? friend_id)
                         && (Friend.friend_id f =? user_id)))
                    && String.eqb (Friend.status f) accepted in
  (exists r, find q (friends s) = Some r /\ In r (friends s) /\
             ((Friend.user_id r = user_id /\ Friend.friend_id r = friend_id) \/
              (Friend.user_id r = friend_id /\ Friend.friend_id r = user_id)) /\
             Friend.status r = accepted)
  \/ (find q (friends s) = None /\
      forall r, In r (friends s) ->
                ~ (((Friend.user_id r = user_id /\ Friend.friend_id r = friend_id) \/
                    (Friend.user_id r = friend_id /\ Friend.friend_id r = user_id)) /\
                   Friend.status r = accepted)).
Proof.
  intros q.
  assert (Hq : forall r, q r = true <->
     ((Friend.user_id r = user_id /\ Friend.friend_id r = friend_id) \/
      (Friend.user_id r = friend_id /\ Friend.friend_id r = user_id)) /\
     Friend.status r = accepted).
  { intros r. unfold q.
    now rewrite andb_true_iff, orb_true_iff, !andb_true_iff, !Z.eqb_eq,
      String.eqb_eq. }
  destruct (find q (friends s)) as [r|] eqn:Hfind.
  - left. exists r. apply find_some in Hfind as [Hr Hc]. apply Hq in Hc.
    destruct Hc. auto.
  - right. split; [reflexivity|]. intros r Hr Hc. apply Hq in Hc.
    pose proof (find_none _ _ Hfind r Hr) as Hn. congruence.
Qed.

Lemma in_remove_middle {A : Type} (l1 l2 : list A) (r x : A) :
  In x (l1 ++ r :: l2) -> x <> r -> In x (l1 ++ l2).
Proof.
  intros Hin Hne. apply in_app_or in Hin as [H|[H|H]]; apply in_or_app;
    [now left|congruence|now right].
Qed.

(** C5. remove-friend(user_id, friend_id) returns true if and only if an
    accepted Friend row exists between the two ids, in either direction.
    When it returns true, in a store that satisfies the primary-key
    constraint, one such row is deleted and every other row of every
    table is as before, so every pending row is still there; when no
    such row exists it returns false and the store is unchanged. *)
Theorem remove_friend_either_direction (s : Session) (user_id friend_id : Z) :
  ((exists s', remove_friend s user_id friend_id = Return s' true) <->
   exists r, In r (friends s) /\
             ((Friend.user_id r = user_id /\ Friend.friend_id r = friend_id) \/
              (Friend.user_id r = friend_id /\ Friend.friend_id r = user_id)) /\
             Friend.status r = accepted)
  /\ (forall s',
        remove_friend s user_id friend_id = Return s' true ->
        pk_ok Friend.id (friends s) = true ->
        (exists l1 r l2,
            friends s = l1 ++ r :: l2 /\
            ((Friend.user_id r = user_id /\ Friend.friend_id r = friend_id) \/
             (Friend.user_id r = friend_id /\ Friend.friend_id r = user_id)) /\
            Friend.status r = accepted /\
            s' = set_friends (l1 ++ l2) s)
        /\ (forall p, In p (friends s) -> Friend.status p = pending ->
                      In p (friends s')))
  /\ ((forall r, In r (friends s) ->
                 ~ (((Friend.user_id r = user_id /\ Friend.friend_id r = friend_id) \/
                     (Friend.user_id r = friend_id /\ Friend.friend_id r = user_id)) /\
                    Friend.status r = accepted)) ->
      remove_friend s user_id friend_id = Return s false).
Proof.
  unfold remove_friend.
  destruct (accepted_lookup s user_id friend_id)
    as [(r & -> & Hr & Hdir & Hst)|[-> Hno]].
  - split; [|split].
    + split; [intros _; exists r; auto|intros _; eexists; reflexivity].
    + intros s' [= <-] Hok.
      destruct (delete_split _ Friend.id (friends s) r Hok Hr)
        as (l1 & l2 & Hsplit & Hdel).
      split.
      * exists l1, r, l2. rewrite Hdel. auto.
      * intros p Hp Hpend. simpl. rewrite Hdel. rewrite Hsplit in Hp.
        apply in_remove_middle with r; [assumption|].
        intros ->. rewrite Hst in Hpend. discriminate.
    + intros Hno. exfalso. apply (Hno r Hr). auto.
  - split; [|split].
    + split; [intros [s' [=]]|].
      intros (r & Hr & Hc). exfalso. apply (Hno r Hr). exact Hc.
    + intros s' [=].
    + reflexivity.
Qed.

Example remove_friend_cases :
  remove_friend db_one_way 1 2 = Return (set_friends [] db_one_way) true
  /\ remove_friend db_one_way 2 1 = Return (set_friends [] db_one_way) true
  /\ (let s := db_after (send_friend_request db_two_users 1 2) db_two_users in
      remove_friend s 1 2 = Return s false
      /\ remove_friend s 2 1 = Return s false).
Proof. repeat split. Qed.

Lemma remove_friend_either_direction_witness :
  ((exists l1 r l2,
       friends db_one_way = l1 ++ r :: l2 /\
       ((Friend.user_id r = 2 /\ Friend.friend_id r = 1) \/
        (Friend.user_id r = 1 /\ Friend.friend_id r = 2)) /\
       Friend.status r = accepted /\
       set_friends [] db_one_way = set_friends (l1 ++ l2) db_one_way)
   /\ (forall p, In p (friends db_one_way) -> Friend.status p = pending ->
                 In p (friends (set_friends [] db_one_way))))
  /\ remove_friend db_two_users 1 2 = Return db_two_users false.
Proof.
  split.
  - apply (proj1 (proj2 (remove_friend_either_direction db_one_way 2 1)));
      reflexivity.
  - apply (proj2 (proj2 (remove_friend_either_direction db_two_users 1 2))).
    simpl. tauto.
Defined.

(** C10, on the code.  In a store that satisfies the primary-key
    constraint one call of remove-friend(A,B) deletes at most one Friend
    row.  When A <> B and accepted rows A->B and B->A both exist, the
    call returns true, deletes exactly one row, and an accepted row
    between A and B is still there.  The pair does not appear in a
    get-friends result afterwards, though: get-friends raises for both
    users, as it does in every store. *)
Theorem remove_friend_at_most_one_row (s : Session) (A B : Z) :
  pk_ok Friend.id (friends s) = true ->
  (forall s' b,
      remove_friend s A B = Return s' b ->
      (List.length (friends s) <= S (List.length (friends s')))%nat)
  /\ (A <> B ->
      (exists r, In r (friends s) /\ Friend.user_id r = A /\
                 Friend.friend_id r = B /\ Friend.status r = accepted) ->
      (exists r, In r (friends s) /\ Friend.user_id r = B /\
                 Friend.friend_id r = A /\ Friend.status r = accepted) ->
      exists s',
        remove_friend s A B = Return s' true /\
        List.length (friends s) = S (List.length (friends s')) /\
        (exists r, In r (friends s') /\
                   ((Friend.user_id r = A /\ Friend.friend_id r = B) \/
                    (Friend.user_id r = B /\ Friend.friend_id r = A)) /\
                   Friend.status r = accepted) /\
        get_friends s' A = Raise /\
        get_friends s' B = Raise).
Proof.
  intros Hok. unfold remove_friend.
  destruct (accepted_lookup s A B) as [(r & -> & Hr & Hdir & Hst)|[-> Hno]].
  - destruct (delete_split _ Friend.id (friends s) r Hok Hr)
      as (l1 & l2 & Hsplit & Hdel).
    split.
    + intros s' b [= <- <-]. simpl. rewrite Hdel, Hsplit.
      rewrite !length_app. simpl. lia.
    + intros Hne (r1 & Hr1 & H1a & H1b & H1st) (r2 & Hr2 & H2a & H2b & H2st).
      eexists. split; [reflexivity|]. simpl. rewrite Hdel.
      split; [rewrite Hsplit, !length_app; simpl; lia|].
      rewrite Hsplit in Hr1, Hr2.
      assert (Hsurv : (In r1 (l1 ++ l2)) \/ (In r2 (l1 ++ l2))).
      { destruct Hdir as [[Ha Hb]|[Ha Hb]].
        - right. apply in_remove_middle with r; [assumption|].
          intros ->. congruence.
        - left. apply in_remove_middle with r; [assumption|].
          intros ->. congruence. }
      split; [|split; apply get_friends_no_onclause].
      destruct Hsurv as [H|H]; [exists r1|exists r2]; auto.
  - split.
    + intros s' b [= <- <-]. lia.
    + intros _ (r1 & Hr1 & H1a & H1b & H1st) _. exfalso.
      apply (Hno r1 Hr1). auto.
Qed.

Example remove_friend_leaves_reverse_row :
  let s' := db_after (remove_friend db_mutual 1 2) db_mutual in
  remove_friend db_mutual 1 2 = Return s' true
  /\ friends s' = [Friend.mk (Some 2) 2 1 accepted]
  /\ get_friends s' 1 = Raise /\ get_friends s' 2 = Raise.
Proof. repeat split. Qed.

Lemma remove_friend_at_most_one_row_witness :
  exists s',
    remove_friend db_mutual 1 2 = Return s' true /\
    List.length (friends db_mutual) = S (List.length (friends s')) /\
    (exists r, In r (friends s') /\
               ((Friend.user_id r = 1 /\ Friend.friend_id r = 2) \/
                (Friend.user_id r = 2 /\ Friend.friend_id r = 1)) /\
               Friend.status r = accepted) /\
    get_friends s' 1 = Raise /\
    get_friends s' 2 = Raise.
Proof.
  apply (proj2 (remove_friend_at_most_one_row db_mutual 1 2 eq_refl)).
  - lia.
  - exists (Friend.mk (Some 1) 1 2 accepted). simpl. auto.
  - exists (Friend.mk (Some 2) 2 1 accepted). simpl. auto.
Defined.

(** ** get-friends is directional *)

(** C6, as stated, fails: with the single accepted row 1 -> 2 and both
    User rows in the store, the conditions of get-friends do not select
    the row for user 2 with the User row of user 1, and get-friends
    returns a list with the other user in it for neither of the two. *)
Lemma get_friends_symmetric_counterexample :
  get_friends_where 2 alice (Friend.mk (Some 1) 1 2 accepted) = false
  /\ ~ (forall r uA uB,
          In r (friends db_one_way) -> Friend.status r = accepted ->
          In uA (users db_one_way) -> User.id uA = Some (Friend.user_id r) ->
          In uB (users db_one_way) -> User.id uB = Some (Friend.friend_id r) ->
          (exists db l,
              get_friends db_one_way (Friend.user_id r) = Return db l /\
              In uB l) /\
          (exists db l,
              get_friends db_one_way (Friend.friend_id r) = Return db l /\
              In uA l)).
Proof.
  split; [reflexivity|]. intros H.
  destruct (H (Friend.mk (Some 1) 1 2 accepted) alice bob)
    as [_ (db & l & Hret & _)]; simpl; auto.
  discriminate Hret.
Qed.

(** C6, amended.  The conditions of get-friends check one ordering of
    the Friend row only: they select a Friend row for a user and a User
    row exactly when Friend.user_id is that user, Friend.friend_id is
    the id of the User row and the status is accepted.  So an accepted
    row A -> B is selected for A with the User row of B, and for B with
    the User row of A only when A = B.  remove-friend, unlike
    get-friends, finds the row with the two ids in either order. *)
Theorem get_friends_one_ordering (s : Session) (r : Friend.t) (uA uB : User.t) :
  In r (friends s) -> Friend.status r = accepted ->
  User.id uA = Some (Friend.user_id r) ->
  User.id uB = Some (Friend.friend_id r) ->
  (forall user_id u f,
      get_friends_where user_id u f = true <->
      Friend.user_id f = user_id /\
      User.id u = Some (Friend.friend_id f) /\
      Friend.status f = accepted)
  /\ get_friends_where (Friend.user_id r) uB r = true
  /\ (get_friends_where (Friend.friend_id r) uA r = true <->
      Friend.user_id r = Friend.friend_id r)
  /\ (exists s1,
         remove_friend s (Friend.user_id r) (Friend.friend_id r)
         = Return s1 true)
  /\ (exists s2,
         remove_friend s (Friend.friend_id r) (Friend.user_id r)
         = Return s2 true).
Proof.
  intros Hr Hst HidA HidB.
  split; [intros; apply get_friends_where_true|].
  split; [now apply get_friends_where_true|].
  split.
  - rewrite get_friends_where_true. split.
    + now intros [H _].
    + intros H. repeat split; auto. congruence.
  - unfold remove_friend. split.
    + destruct (accepted_lookup s (Friend.user_id r) (Friend.friend_id r))
        as [(r' & -> & _)|[_ Hno]]; [eexists; reflexivity|].
      exfalso. apply (Hno r Hr). auto.
    + destruct (accepted_lookup s (Friend.friend_id r) (Friend.user_id r))
        as [(r' & -> & _)|[_ Hno]]; [eexists; reflexivity|].
      exfalso. apply (Hno r Hr). auto.
Qed.

Lemma get_friends_one_ordering_witness :
  let r := Friend.mk (Some 1) 1 2 accepted in
  get_friends_where 1 bob r = true
  /\ (get_friends_where 2 alice r = true <-> 1 = 2)
  /\ (exists s1, remove_friend db_one_way 1 2 = Return s1 true)
  /\ (exists s2, remove_friend db_one_way 2 1 = Return s2 true).
Proof.
  apply (get_friends_one_ordering db_one_way
           (Friend.mk (Some 1) 1 2 accepted) alice bob);
    simpl; auto.
Defined.

(** ** Posts and comments *)

Import post_service.

Section OrderByFacts.
Variable row : Type.
Variable key : row -> Z.

Lemma place_desc_perm (x : row) (l : list row) :
  Permutation (place_desc row key x l) (x :: l).
Proof.
  induction l as [|y l IH]; simpl; [reflexivity|].
  destruct (key y <=? key x); [reflexivity|].
  rewrite IH. apply perm_swap.
Qed.

Lemma order_by_desc_perm (l : list row) :
  Permutation (order_by_desc key l) l.
Proof.
  induction l as [|x l IH]; simpl; [reflexivity|].
  rewrite place_desc_perm. now apply perm_skip.
Qed.

Lemma place_desc_sorted (x : row) (l : list row) :
  StronglySorted (fun a b => key b <= key a) l ->
  StronglySorted (fun a b => key b <= key a) (place_desc row key x l).
Proof.
  induction 1 as [|y l Hs IH Hall]; simpl.
  - constructor; constructor.
  - destruct (key y <=? key x) eqn:Hc.
    + apply Z.leb_le in Hc. constructor; [now constructor|].
      constructor; [assumption|].
      eapply Forall_impl; [|exact Hall]. simpl. intros a Ha. lia.
    + apply Z.leb_gt in Hc. constructor; [assumption|].
      apply Permutation_Forall with (x :: l).
      * symmetry. apply place_desc_perm.
      * constructor; [lia|assumption].
Qed.

Lemma order_by_desc_sorted (l : list row) :
  StronglySorted (fun a b => key b <= key a) (order_by_desc key l).
Proof.
  induction l as [|x l IH]; simpl; [constructor|].
  now apply place_desc_sorted.
Qed.

Lemma place_asc_perm (x : row) (l : list row) :
  Permutation (place_asc row key x l) (x :: l).
Proof.
  induction l as [|y l IH]; simpl; [reflexivity|].
  destruct (key x <=? key y); [reflexivity|].
  rewrite IH. apply perm_swap.
Qed.

Lemma order_by_asc_perm (l : list row) :
  Permutation (order_by_asc key l) l.
Proof.
  induction l as [|x l IH]; simpl; [reflexivity|].
  rewrite place_asc_perm. now apply perm_skip.
Qed.

End OrderByFacts.

(** C7. list-timeline(user_id, friend_ids) returns, newest first, exactly
    the Post rows whose owner is user_id or one of friend_ids: the result
    is a rearrangement of the Post table filtered on that condition, its
    created timestamps never increase from one row to the next, and it is
    the same in any two stores with the same Post table, whatever their
    Friend rows. *)
Theorem get_timeline_posts_newest_first (s : Session) (user_id : Z)
    (friend_ids : list Z) :
  (exists owned : Post.t -> bool,
      Permutation (get_timeline_posts s user_id friend_ids)
                  (filter owned (posts s)) /\
      forall p, owned p = true <->
                Post.user_id p = user_id \/ In (Post.user_id p) friend_ids)
  /\ StronglySorted (fun a b => Post.created_at b <= Post.created_at a)
       (get_timeline_posts s user_id friend_ids)
  /\ (forall s', posts s' = posts s ->
                 get_timeline_posts s' user_id friend_ids
                 = get_timeline_posts s user_id friend_ids).
Proof.
  split; [|split].
  - eexists. split; [apply order_by_desc_perm|]. intros p. cbv beta.
    rewrite in_true. simpl. intuition auto.
  - apply order_by_desc_sorted.
  - intros s' Hp. unfold get_timeline_posts. now rewrite Hp.
Qed.

Example timeline_sample :
  get_timeline_posts db_posts 1 [3]
  = [Post.mk (Some 4) 1 "d" None None 40 40;
     Post.mk (Some 3) 3 "c" None None 20 20;
     Post.mk (Some 1) 1 "a" None None 10 10]
  /\ get_timeline_posts db_posts 2 [] = [Post.mk (Some 2) 2 "b" None None 30 30]
  /\ get_timeline_posts db_posts_and_friends 2 []
     = [Post.mk (Some 2) 2 "b" None None 30 30].
Proof. repeat split. Qed.

Lemma get_timeline_posts_newest_first_witness :
  get_timeline_posts db_posts_and_friends 2 [1]
  = get_timeline_posts db_posts 2 [1].
Proof.
  apply (proj2 (proj2 (get_timeline_posts_newest_first db_posts 2 [1]))).
  reflexivity.
Defined.

Lemma find_split_hit {A : Type} (q : A -> bool) (l1 l2 : list A) (x : A) :
  (forall y, In y l1 -> q y = false) -> q x = true ->
  find q (l1 ++ x :: l2) = Some x.
Proof.
  induction l1 as [|a l1 IH]; simpl; intros Hl Hx.
  - now rewrite Hx.
  - rewrite (Hl a (or_introl eq_refl)). apply IH; auto.
Qed.

Lemma get_unique {row : Type} (pk : row -> option Z) (t : list row)
    (r : row) (k : Z) :
  pk_ok pk t = true -> In r t -> pk r = Some k -> get pk k t = Some r.
Proof.
  intros Hok Hin Hk.
  destruct (pk_ok_split _ pk t r Hok Hin) as (k' & l1 & l2 & Hk' & -> & H1 & _).
  assert (k' = k) as -> by congruence.
  unfold get. apply find_split_hit; [assumption|]. now apply pk_is_true.
Qed.

Lemma get_comments_for_post_In (s : Session) (post_id : Z) (c : Comment.t) :
  In c (get_comments_for_post s post_id) <->
  In c (comments s) /\ Comment.post_id c = post_id.
Proof.
  unfold get_comments_for_post. split.
  - intros H. apply (Permutation_in _ (order_by_asc_perm _ _ _)) in H.
    apply filter_In in H as [H1 H2]. apply Z.eqb_eq in H2. auto.
  - intros [H1 H2].
    apply (Permutation_in _ (Permutation_sym (order_by_asc_perm _ _ _))).
    apply filter_In. split; [assumption|now apply Z.eqb_eq].
Qed.

(** C8. delete-post(id), when a Post row with that key exists, returns
    true; the User, Friend, Comment and Story tables are as before, so
    list-comments-for-post returns for every post id, the deleted one
    included, what it returned before: after the delete
    list-comments-for-post(id) still returns every Comment row whose
    post id is id, and exactly those.  In a store that satisfies the
    primary-key constraint the Post table loses that row and no
    other. *)
Theorem delete_post_orphans_comments (s : Session) (post_id : Z) (p : Post.t) :
  In p (posts s) -> Post.id p = Some post_id ->
  exists s',
    delete_post s post_id = Return s' true /\
    users s' = users s /\ friends s' = friends s /\
    comments s' = comments s /\ stories s' = stories s /\
    (forall k, get_comments_for_post s' k = get_comments_for_post s k) /\
    (forall c, In c (get_comments_for_post s' post_id) <->
               In c (comments s) /\ Comment.post_id c = post_id) /\
    (pk_ok Post.id (posts s) = true ->
     exists l1 l2, posts s = l1 ++ p :: l2 /\ posts s' = l1 ++ l2).
Proof.
  intros Hp Hid. unfold delete_post.
  destruct (get Post.id post_id (posts s)) as [q|] eqn:Hget.
  - eexists. split; [reflexivity|]. simpl.
    do 5 (split; [reflexivity|]).
    split.
    { intros c.
      exact (get_comments_for_post_In
               (set_posts (delete Post.id q (posts s)) s) post_id c). }
    intros Hok. rewrite (get_unique Post.id _ p post_id Hok Hp Hid) in Hget.
    injection Hget as <-.
    destruct (delete_split _ Post.id (posts s) p Hok Hp) as (l1 & l2 & H1 & H2).
    exists l1, l2. auto.
  - exfalso. pose proof (find_none _ _ Hget p Hp) as Hc.
    apply pk_is_false in Hc. contradiction.
Qed.

Example delete_post_sample :
  let c k post t := Comment.mk (Some k) post 2 None "c" t in
  let s := mkSession [alice; bob] []
             [Post.mk (Some 1) 1 "a" None None 5 5;
              Post.mk (Some 2) 1 "b" None None 6 6]
             [c 1 1 20; c 2 2 15; c 3 1 10] [] in
  let s' := db_after (delete_post s 1) s in
  delete_post s 1 = Return s' true
  /\ posts s' = [Post.mk (Some 2) 1 "b" None None 6 6]
  /\ get_comments_for_post s' 1 = [c 3 1 10; c 1 1 20]
  /\ delete_post s' 1 = Return s' false.
Proof. repeat split. Qed.

Lemma delete_post_orphans_comments_witness :
  let p := Post.mk (Some 1) 1 "a" None None 5 5 in
  let s := mkSession [alice; bob] [] [p]
             [Comment.mk (Some 1) 1 2 None "c" 20] [] in
  exists s',
    delete_post s 1 = Return s' true /\
    users s' = users s /\ friends s' = friends s /\
    comments s' = comments s /\ stories s' = stories s /\
    (forall k, get_comments_for_post s' k = get_comments_for_post s k) /\
    (forall c, In c (get_comments_for_post s' 1) <->
               In c (comments s) /\ Comment.post_id c = 1) /\
    (pk_ok Post.id (posts s) = true ->
     exists l1 l2, posts s = l1 ++ p :: l2 /\ posts s' = l1 ++ l2).
Proof.
  intros p s. apply (delete_post_orphans_comments s 1 p).
  - simpl. now left.
  - reflexivity.
Defined.

(** ** The Friend status invariant *)

Lemma in_update {row : Type} (pk : row -> option Z) (r r' x : row)
    (t : list row) :
  In x (update pk r r' t) -> In x t \/ x = r'.
Proof.
  unfold update. destruct (pk r) as [k|]; [|now left].
  rewrite in_map_iff. intros (y & <- & Hy).
  destruct (pk_is pk k y); [now right|now left].
Qed.

Lemma in_delete {row : Type} (pk : row -> option Z) (r x : row)
    (t : list row) :
  In x (delete pk r t) -> In x t.
Proof.
  unfold delete. destruct (pk r) as [k|]; [|auto].
  intros H. now apply filter_In in H.
Qed.

(** What one service call can do to the Friend table: every row after
    the call was there before, or is the pending row a send-request
    added, or is a pending row an accept turned into accepted. *)
Lemma friends_step (c : call) (s : Session) (f : Friend.t) :
  In f (friends (run c s)) ->
  In f (friends s)
  \/ (Friend.status f = pending /\
      c = SendFriendRequest (Friend.user_id f) (Friend.friend_id f))
  \/ (Friend.status f = accepted /\
      c = AcceptFriendRequest (Friend.friend_id f) (Friend.user_id f) /\
      exists r, In r (friends s) /\ Friend.status r = pending /\
                f = Friend.set_status accepted r).
Proof.
  destruct c; simpl.
  - unfold user_service.create_user.
    destruct (clerk_taken _ _); [now left|].
    destruct (insert _ _ _ _) as [[? ?]|]; now left.
  - unfold user_service.update_user.
    destruct (get_user_by_id _ _); [|now left].
    destruct (User.id _); [|now left].
    destruct (_ || _); now left.
  - unfold user_service.delete_user.
    destruct (get_user_by_id _ _); now left.
  - unfold user_service.accept_friend_request.
    destruct (pending_lookup s user_id friend_id)
      as [(r & -> & Hr & H1 & H2 & Hst)|[-> Hno]]; [|now left].
    simpl. intros Hin. apply in_update in Hin as [Hin| ->]; [now left|].
    right. right. simpl. rewrite H1, H2. repeat split. exists r. auto.
  - unfold user_service.reject_friend_request.
    destruct (find _ _); [|now left].
    simpl. intros Hin. left. now apply in_delete in Hin.
  - unfold user_service.send_friend_request.
    destruct (find _ _); [now left|].
    rewrite insert_generated by reflexivity. simpl. intros Hin.
    apply in_app_or in Hin as [Hin|[<-|[]]]; [now left|].
    right. left. simpl. auto.
  - unfold user_service.remove_friend.
    destruct (find _ _); [|now left].
    simpl. intros Hin. left. now apply in_delete in Hin.
  - unfold post_service.create_post.
    destruct (insert _ _ _ _) as [[? ?]|]; now left.
  - unfold post_service.add_comment.
    destruct (insert _ _ _ _) as [[? ?]|]; now left.
  - unfold post_service.add_reply.
    destruct (insert _ _ _ _) as [[? ?]|]; now left.
  - unfold post_service.delete_post.
    destruct (get _ _ _); now left.
  - unfold post_service.delete_comment.
    destruct (get _ _ _); now left.
  - unfold story_service.create_story.
    destruct (insert _ _ _ _) as [[? ?]|]; now left.
Qed.

Lemma reachable_status_ok (s : Session) : reachable s -> status_ok s.
Proof.
  induction 1 as [|c s Hreach IH]; intros f Hf.
  - destruct Hf.
  - apply friends_step in Hf as [Hf|[[Hf _]|[Hf _]]]; auto.
Qed.

(** C9. In every store reached from the empty store by a sequence of
    service calls, every Friend row has status pending or accepted, so
    none has status blocked.  A call adds rows only as send-request
    does, with status pending, and changes a status only as accept does,
    from pending to accepted. *)
Theorem friend_status_never_blocked (s : Session) :
  reachable s ->
  (forall f, In f (friends s) ->
             (Friend.status f = pending \/ Friend.status f = accepted) /\
             Friend.status f <> blocked)
  /\ (forall c f,
        In f (friends (run c s)) ->
        In f (friends s)
        \/ (Friend.status f = pending /\
            c = SendFriendRequest (Friend.user_id f) (Friend.friend_id f))
        \/ (Friend.status f = accepted /\
            c = AcceptFriendRequest (Friend.friend_id f) (Friend.user_id f) /\
            exists r, In r (friends s) /\ Friend.status r = pending /\
                      f = Friend.set_status accepted r)).
Proof.
  intros Hreach. split.
  - intros f Hf. pose proof (reachable_status_ok s Hreach f Hf) as Hok.
    split; [assumption|]. destruct Hok as [-> | ->]; discriminate.
  - intros c f. apply friends_step.
Qed.

Example friend_lifecycle :
  friends (run_all [SendFriendRequest 1 2; SendFriendRequest 2 1;
                    AcceptFriendRequest 2 1; RejectFriendRequest 1 2;
                    SendFriendRequest 2 1; AcceptFriendRequest 1 2]
                   empty_db)
  = [Friend.mk (Some 1) 1 2 accepted; Friend.mk (Some 2) 2 1 accepted]
  /\ friends (run_all [SendFriendRequest 1 2; AcceptFriendRequest 2 1;
                       RemoveFriend 2 1; SendFriendRequest 1 2]
                      empty_db)
     = [Friend.mk (Some 1) 1 2 pending].
Proof. split; reflexivity. Qed.

Lemma friend_status_never_blocked_witness :
  let s := run (AcceptFriendRequest 2 1)
             (run (SendFriendRequest 1 2) empty_db) in
  friends s = [Friend.mk (Some 1) 1 2 accepted]
  /\ forall f, In f (friends s) ->
               (Friend.status f = pending \/ Friend.status f = accepted) /\
               Friend.status f <> blocked.
Proof.
  split; [reflexivity|].
  apply (friend_status_never_blocked
           (run (AcceptFriendRequest 2 1)
                (run (SendFriendRequest 1 2) empty_db))).
  apply reachable_run. apply reachable_run. apply reachable_empty.
Defined.

(** ** The schema's constraints hold in every reachable store *)

Section ConstraintFacts.
Variable row : Type.
Variable pk : row -> option Z.
Variable set_pk : option Z -> row -> row.
Hypothesis pk_set_pk : forall k r, pk (set_pk k r) = k.

Lemma pk_ok_NoDup (t : list row) :
  pk_ok pk t = true <->
  (forall r, In r t -> pk r <> None) /\ NoDup (map pk t).
Proof.
  induction t as [|a t IH]; simpl.
  - split; [intros _; split; [intros r []|constructor]|reflexivity].
  - destruct (pk a) as [k|] eqn:Hk.
    + rewrite andb_true_iff, negb_true_iff, IH, existsb_false. split.
      * intros (Hfresh & Hsome & Hnd). split.
        -- intros r [<-|Hr]; [congruence|now apply Hsome].
        -- constructor; [|assumption]. rewrite in_map_iff.
           intros (x & Hx & Hin). apply Hfresh in Hin.
           apply pk_is_false in Hin. congruence.
      * intros (Hsome & Hnd). inversion Hnd as [|? ? Hnotin Hnd']; subst.
        split; [|split; [intros r Hr; apply Hsome; now right|assumption]].
        intros x Hx. apply pk_is_false. intros Hxk. apply Hnotin.
        apply in_map_iff. exists x. split; [congruence|assumption].
    + split; [discriminate|]. intros (Hsome & _). exfalso.
      apply (Hsome a); auto.
Qed.

Lemma NoDup_map_filter {A B : Type} (f : A -> B) (q : A -> bool) (l : list A) :
  NoDup (map f l) -> NoDup (map f (filter q l)).
Proof.
  induction l as [|a l IH]; simpl; intros H; [constructor|].
  inversion H as [|? ? Hnotin Hnd]; subst.
  destruct (q a); simpl; [|now apply IH].
  constructor; [|now apply IH]. intros Hin. apply Hnotin.
  apply in_map_iff in Hin as (x & Hx & Hin). apply filter_In in Hin as [Hin _].
  apply in_map_iff. eauto.
Qed.

Lemma delete_pk_ok (r : row) (t : list row) :
  pk_ok pk t = true -> pk_ok pk (delete pk r t) = true.
Proof.
  unfold delete. destruct (pk r) as [k|]; [|auto].
  rewrite !pk_ok_NoDup. intros [Hsome Hnd]. split.
  - intros x Hx. apply filter_In in Hx as [Hx _]. now apply Hsome.
  - now apply NoDup_map_filter.
Qed.

Lemma update_pk_ok (r r' : row) (t : list row) :
  In r t -> pk r' = pk r ->
  pk_ok pk t = true -> pk_ok pk (update pk r r' t) = true.
Proof.
  intros Hin Heq Hok.
  destruct (update_split _ pk t r r' Hok Hin) as (l1 & l2 & Hsplit & ->).
  rewrite Hsplit in Hok. now apply pk_ok_replace with r.
Qed.

(** Rewriting the selected row, key included, keeps the constraint when
    the new key is carried by no other row. *)
Lemma rekey_pk_ok (r r' : row) (k k' : Z) (t : list row) :
  In r t -> pk r = Some k -> pk r' = Some k' ->
  existsb (pk_is pk k') (filter (fun x => negb (pk_is pk k x)) t) = false ->
  pk_ok pk t = true -> pk_ok pk (update pk r r' t) = true.
Proof.
  intros Hin Hk Hk' Hfresh Hok.
  destruct (update_split _ pk t r r' Hok Hin) as (l1 & l2 & Hsplit & ->).
  destruct (delete_split _ pk t r Hok Hin) as (m1 & m2 & Hsplit' & Hdel).
  unfold delete in Hdel. rewrite Hk in Hdel. rewrite Hdel in Hfresh.
  assert (Hl : l1 ++ l2 = m1 ++ m2).
  { rewrite <- Hdel, Hsplit, filter_app. simpl.
    assert (Hr : pk_is pk k r = true) by now apply pk_is_true.
    rewrite Hr. simpl. rewrite Hsplit in Hok.
    apply pk_ok_NoDup in Hok as [_ Hnd].
    rewrite map_app in Hnd. simpl in Hnd. rewrite Hk in Hnd.
    pose proof (NoDup_remove_2 _ _ _ Hnd) as Hnotin.
    rewrite !filter_all; [reflexivity| |]; intros x Hx;
      apply negb_true_iff, pk_is_false; intros Hxk; apply Hnotin;
      apply in_or_app; [right|left]; apply in_map_iff; eauto. }
  rewrite <- Hl in Hfresh. rewrite Hsplit in Hok.
  apply pk_ok_NoDup in Hok as [Hsome Hnd]. apply pk_ok_NoDup. split.
  - intros x Hx. apply in_app_or in Hx as [Hx|[<-|Hx]].
    + apply Hsome. apply in_or_app. now left.
    + congruence.
    + apply Hsome. apply in_or_app. right. now right.
  - rewrite map_app in *. simpl in *. apply NoDup_remove_1 in Hnd.
    apply Permutation_NoDup with (pk r' :: map pk l1 ++ map pk l2).
    + apply Permutation_middle.
    + constructor; [|assumption]. rewrite Hk', <- map_app, in_map_iff.
      intros (x & Hx & Hxin).
      pose proof (proj1 (existsb_false _ _) Hfresh x Hxin) as Hc.
      apply pk_is_false in Hc. contradiction.
Qed.

End ConstraintFacts.

Lemma unique_strings_NoDup (l : list string) :
  unique_strings l = true <-> NoDup l.
Proof.
  induction l as [|a l IH]; simpl.
  - split; [constructor|reflexivity].
  - rewrite andb_true_iff, negb_true_iff, IH, existsb_false. split.
    + intros [Hfresh Hnd]. constructor; [|assumption]. intros Hin.
      apply Hfresh in Hin. now rewrite String.eqb_refl in Hin.
    + intros H. inversion H as [|? ? Hnotin Hnd]; subst.
      split; [|assumption]. intros x Hx. apply String.eqb_neq.
      intros ->. contradiction.
Qed.

Lemma clerk_taken_false (c : string) (l : list User.t) :
  clerk_taken c l = false <-> ~ In c (map User.clerk_user_id l).
Proof.
  unfold clerk_taken. rewrite existsb_false, in_map_iff. split.
  - intros H (u & Hu & Hin). apply H in Hin. rewrite Hu in Hin.
    now rewrite String.eqb_refl in Hin.
  - intros H u Hu. apply String.eqb_neq. intros Heq. apply H. eauto.
Qed.

Lemma select_split {row : Type} (pk : row -> option Z) (t : list row)
    (r : row) (k : Z) :
  pk_ok pk t = true -> In r t -> pk r = Some k ->
  exists l1 l2,
    t = l1 ++ r :: l2 /\
    filter (fun x => negb (pk_is pk k x)) t = l1 ++ l2 /\
    forall r', update pk r r' t = l1 ++ r' :: l2.
Proof.
  intros Hok Hin Hk.
  destruct (pk_ok_split _ pk t r Hok Hin) as (k' & l1 & l2 & Hk' & -> & H1 & H2).
  assert (k' = k) as -> by congruence.
  assert (Hr : pk_is pk k r = true) by now apply pk_is_true.
  exists l1, l2. split; [reflexivity|]. split.
  - rewrite filter_app. simpl. rewrite Hr. simpl.
    rewrite !filter_all; auto; intros x Hx; apply negb_true_iff; auto.
  - intros r'. unfold update. rewrite Hk, map_app. simpl. rewrite Hr.
    f_equal; [|f_equal].
    + rewrite <- (map_id l1) at 2. apply map_ext_in. intros x Hx.
      now rewrite H1.
    + rewrite <- (map_id l2) at 2. apply map_ext_in. intros x Hx.
      now rewrite H2.
Qed.

Lemma insert_shape {row : Type} (pk : row -> option Z)
    (set_pk : option Z -> row -> row) (r r' : row) (t t' : list row) :
  insert pk set_pk r t = Some (r', t') ->
  t' = t ++ [r'] /\ (r' = r \/ r' = set_pk (Some (next_pk pk t)) r).
Proof.
  unfold insert. destruct (pk r) as [k|].
  - destruct (existsb _ _); [discriminate|]. intros [= <- <-]. auto.
  - intros [= <- <-]. auto.
Qed.

Lemma run_constraints_ok (c : call) (s : Session) :
  constraints_ok s = true -> constraints_ok (run c s) = true.
Proof.
  unfold constraints_ok. rewrite !andb_true_iff.
  intros [[[[[Hu Hc] Hf] Hp] Hcm] Hst].
  destruct c; simpl.
  - unfold user_service.create_user.
    destruct (clerk_taken _ _) eqn:Htaken; simpl; [auto 10|].
    destruct (insert _ _ _ _) as [[user' l]|] eqn:Hins; simpl; [|auto 10].
    repeat split; auto.
    + eapply insert_pk_ok; [|exact Hins|exact Hu]. reflexivity.
    + apply insert_shape in Hins as [-> Hshape].
      apply unique_strings_NoDup. rewrite map_app. simpl.
      apply Permutation_NoDup
        with (User.clerk_user_id user' :: map User.clerk_user_id (users s)).
      * apply Permutation_cons_append.
      * constructor; [|now apply unique_strings_NoDup].
        apply clerk_taken_false in Htaken.
        now destruct Hshape as [-> | ->].
  - unfold user_service.update_user.
    destruct (get_user_by_id s user_id) as [existing|] eqn:Hget;
      [|simpl; auto 10].
    cbv zeta.
    destruct (User.id (setattrs updated_user existing)) as [k'|] eqn:Hk';
      [|simpl; auto 10].
    destruct (_ || _) eqn:Hchk; [simpl; auto 10|].
    unfold db_after, set_users; cbn [users friends posts comments stories].
    apply orb_false_iff in Hchk as [Hkey Hclerk].
    apply find_some in Hget as [Hin Hid]. apply pk_is_true in Hid.
    repeat split; auto.
    + now apply rekey_pk_ok with user_id k'.
    + destruct (select_split User.id (users s) existing user_id Hu Hin Hid)
        as (l1 & l2 & Hsplit & Hothers & Hupd).
      rewrite Hupd. rewrite Hothers in Hclerk.
      apply clerk_taken_false in Hclerk.
      apply unique_strings_NoDup in Hc. apply unique_strings_NoDup.
      rewrite Hsplit in Hc. rewrite map_app in *. simpl in *.
      apply NoDup_remove_1 in Hc.
      eapply Permutation_NoDup; [apply Permutation_middle|].
      constructor; assumption.
  - unfold user_service.delete_user.
    destruct (get_user_by_id s user_id) as [existing|] eqn:Hget; simpl;
      [|auto 10].
    repeat split; auto.
    + now apply delete_pk_ok.
    + unfold delete. destruct (User.id existing); [|assumption].
      apply unique_strings_NoDup. apply NoDup_map_filter.
      now apply unique_strings_NoDup.
  - unfold user_service.accept_friend_request.
    destruct (find _ _) as [r|] eqn:Hfind; simpl; [|auto 10].
    apply find_some in Hfind as [Hin _].
    repeat split; auto. now apply update_pk_ok.
  - unfold user_service.reject_friend_request.
    destruct (find _ _) as [r|] eqn:Hfind; simpl; [|auto 10].
    repeat split; auto. now apply delete_pk_ok.
  - unfold user_service.send_friend_request.
    destruct (find _ _); [simpl; auto 10|].
    destruct (insert _ _ _ _) as [[r l]|] eqn:Hins; simpl; [|auto 10].
    repeat split; auto.
    eapply insert_pk_ok; [|exact Hins|exact Hf]. reflexivity.
  - unfold user_service.remove_friend.
    destruct (find _ _) as [r|] eqn:Hfind; simpl; [|auto 10].
    repeat split; auto. now apply delete_pk_ok.
  - unfold post_service.create_post.
    destruct (insert _ _ _ _) as [[r l]|] eqn:Hins; simpl; [|auto 10].
    repeat split; auto.
    eapply insert_pk_ok; [|exact Hins|exact Hp]. reflexivity.
  - unfold post_service.add_comment.
    destruct (insert _ _ _ _) as [[r l]|] eqn:Hins; simpl; [|auto 10].
    repeat split; auto.
    eapply insert_pk_ok; [|exact Hins|exact Hcm]. reflexivity.
  - unfold post_service.add_reply.
    destruct (insert _ _ _ _) as [[r l]|] eqn:Hins; simpl; [|auto 10].
    repeat split; auto.
    eapply insert_pk_ok; [|exact Hins|exact Hcm]. reflexivity.
  - unfold post_service.delete_post.
    destruct (get _ _ _) as [r|]; simpl; [|auto 10].
    repeat split; auto. now apply delete_pk_ok.
  - unfold post_service.delete_comment.
    destruct (get _ _ _) as [r|]; simpl; [|auto 10].
    repeat split; auto. now apply delete_pk_ok.
  - unfold story_service.create_story.
    destruct (insert _ _ _ _) as [[r l]|] eqn:Hins; simpl; [|auto 10].
    repeat split; auto.
    eapply insert_pk_ok; [|exact Hins|exact Hst]. reflexivity.
Qed.

(** The hypothesis of the statements above that mention the primary-key
    constraint holds in every store the service calls can produce. *)
Lemma reachable_constraints_ok (s : Session) :
  reachable s -> constraints_ok s = true.
Proof.
  induction 1 as [|c s Hreach IH]; [reflexivity|].
  now apply run_constraints_ok.
Qed.

(** * Further properties of the services *)

(** ** Pending requests and rejection *)

(** X1. get_pending_friend_requests builds the same join without ON
    clause as get_friends and raises like it, in every store and for
    every user; the handlers GET /users/{user_id}/friends and GET
    /users/{user_id}/friends/pending call the two without catching
    anything, so neither endpoint ever answers, whatever the Friend
    table holds. *)
Theorem friend_queries_never_answer (isoformat : datetime -> string)
    (s : Session) (user_id : Z) :
  get_pending_friend_requests s user_id = Raise
  /\ user_route.get_friends isoformat s user_id = Raise
  /\ user_route.get_pending_friend_requests isoformat s user_id = Raise.
Proof.
  unfold user_route.get_friends, user_route.get_pending_friend_requests.
  rewrite get_friends_no_onclause, get_pending_no_onclause. auto.
Qed.

(** X2. reject(user_id, friend_id) returns true if and only if a pending
    Friend row friend_id -> user_id exists.  When it returns true, in a
    store that satisfies the primary-key constraint, one such row is
    deleted and every other row is as before, so no accepted row is ever
    deleted; when no such row exists it returns false and the store is
    unchanged. *)
Theorem reject_friend_request_pending_only (s : Session)
    (user_id friend_id : Z) :
  ((exists s', reject_friend_request s user_id friend_id = Return s' true) <->
   exists r, In r (friends s) /\ Friend.user_id r = friend_id /\
             Friend.friend_id r = user_id /\ Friend.status r = pending)
  /\ (forall s',
        reject_friend_request s user_id friend_id = Return s' true ->
        pk_ok Friend.id (friends s) = true ->
        (exists l1 r l2,
            friends s = l1 ++ r :: l2 /\
            Friend.user_id r = friend_id /\ Friend.friend_id r = user_id /\
            Friend.status r = pending /\
            s' = set_friends (l1 ++ l2) s)
        /\ (forall a, In a (friends s) -> Friend.status a = accepted ->
                      In a (friends s')))
  /\ ((forall r, In r (friends s) ->
                 ~ (Friend.user_id r = friend_id /\
                    Friend.friend_id r = user_id /\
                    Friend.status r = pending)) ->
      reject_friend_request s user_id friend_id = Return s false).
Proof.
  unfold reject_friend_request.
  destruct (pending_lookup s user_id friend_id)
    as [(r & -> & Hr & H1 & H2 & Hst)|[-> Hno]].
  - split; [|split].
    + split; [intros _; exists r; auto|intros _; eexists; reflexivity].
    + intros s' [= <-] Hok.
      destruct (delete_split _ Friend.id (friends s) r Hok Hr)
        as (l1 & l2 & Hsplit & Hdel).
      split.
      * exists l1, r, l2. rewrite Hdel. auto.
      * intros a Ha Hacc. simpl. rewrite Hdel. rewrite Hsplit in Ha.
        apply in_remove_middle with r; [assumption|].
        intros ->. rewrite Hst in Hacc. discriminate.
    + intros Hno. exfalso. apply (Hno r Hr). auto.
  - split; [|split].
    + split; [intros [s' [=]]|].
      intros (r & Hr & H1 & H2 & Hst). exfalso. apply (Hno r Hr). auto.
    + intros s' [=].
    + reflexivity.
Qed.

Lemma reject_friend_request_pending_only_witness :
  let s := db_after (send_friend_request db_one_way 2 1) db_one_way in
  ((exists l1 r l2,
       friends s = l1 ++ r :: l2 /\
       Friend.user_id r = 2 /\ Friend.friend_id r = 1 /\
       Friend.status r = pending /\
       db_one_way = set_friends (l1 ++ l2) s)
   /\ (forall a, In a (friends s) -> Friend.status a = accepted ->
                 In a (friends db_one_way)))
  /\ reject_friend_request db_one_way 2 1 = Return db_one_way false.
Proof.
  split.
  - apply (proj1 (proj2 (reject_friend_request_pending_only
                           (db_after (send_friend_request db_one_way 2 1)
                                     db_one_way) 1 2)));
      reflexivity.
  - apply (proj2 (proj2 (reject_friend_request_pending_only db_one_way 2 1))).
    simpl. intros r [<-|[]]. simpl. intros (_ & _ & H). discriminate.
Defined.

(** ** Invariants of the reachable stores *)

(** The four things one service call can do to the Friend table of a
    store that satisfies the primary-key constraint. *)
Lemma friends_shape (c : call) (s : Session) :
  pk_ok Friend.id (friends s) = true ->
  friends (run c s) = friends s
  \/ (exists q, friends (run c s) = filter q (friends s))
  \/ (exists l1 r l2,
         friends s = l1 ++ r :: l2 /\
         friends (run c s) = l1 ++ Friend.set_status accepted r :: l2)
  \/ (exists k a b,
         c = SendFriendRequest a b /\
         (forall f, In f (friends s) -> direction f <> (a, b)) /\
         friends (run c s) = friends s ++ [Friend.mk (Some k) a b pending]).
Proof.
  intros Hok. destruct c; simpl.
  - unfold user_service.create_user.
    destruct (clerk_taken _ _); [now left|].
    destruct (insert _ _ _ _) as [[? ?]|]; now left.
  - unfold user_service.update_user.
    destruct (get_user_by_id _ _); [|now left].
    destruct (User.id _); [|now left].
    destruct (_ || _); now left.
  - unfold user_service.delete_user.
    destruct (get_user_by_id _ _); now left.
  - unfold user_service.accept_friend_request.
    destruct (find _ _) as [r|] eqn:Hfind; [|now left].
    apply find_some in Hfind as [Hr _]. simpl.
    destruct (update_split _ Friend.id (friends s) r
                (Friend.set_status accepted r) Hok Hr)
      as (l1 & l2 & Hsplit & Hupd).
    right. right. left. exists l1, r, l2. auto.
  - unfold user_service.reject_friend_request.
    destruct (find _ _) as [r|]; [|now left].
    simpl. unfold delete. destruct (Friend.id r); [|now left].
    right. left. eexists. reflexivity.
  - unfold user_service.send_friend_request.
    destruct (find _ _) eqn:Hfind; [now left|].
    rewrite insert_generated by reflexivity. simpl.
    right. right. right. eexists. exists user_id, friend_id.
    split; [reflexivity|]. split; [|reflexivity].
    intros f Hf Hdir. pose proof (find_none _ _ Hfind f Hf) as Hc.
    unfold direction in Hdir. injection Hdir as H1 H2. simpl in Hc.
    rewrite H1, H2, !Z.eqb_refl in Hc. discriminate.
  - unfold user_service.remove_friend.
    destruct (find _ _) as [r|]; [|now left].
    simpl. unfold delete. destruct (Friend.id r); [|now left].
    right. left. eexists. reflexivity.
  - unfold post_service.create_post.
    destruct (insert _ _ _ _) as [[? ?]|]; now left.
  - unfold post_service.add_comment.
    destruct (insert _ _ _ _) as [[? ?]|]; now left.
  - unfold post_service.add_reply.
    destruct (insert _ _ _ _) as [[? ?]|]; now left.
  - unfold post_service.delete_post.
    destruct (get _ _ _); now left.
  - unfold post_service.delete_comment.
    destruct (get _ _ _); now left.
  - unfold story_service.create_story.
    destruct (insert _ _ _ _) as [[? ?]|]; now left.
Qed.

Lemma run_one_row_per_direction (c : call) (s : Session) :
  pk_ok Friend.id (friends s) = true ->
  one_row_per_direction s -> one_row_per_direction (run c s).
Proof.
  unfold one_row_per_direction. intros Hok Hnd.
  destruct (friends_shape c s Hok)
    as [->|[(q & ->)|[(l1 & r & l2 & Hs & ->)|(k & a & b & _ & Hno & ->)]]].
  - assumption.
  - now apply NoDup_map_filter.
  - rewrite Hs in Hnd. rewrite map_app in *. exact Hnd.
  - rewrite map_app. simpl.
    apply Permutation_NoDup with ((a, b) :: map direction (friends s)).
    + apply Permutation_cons_append.
    + constructor; [|assumption]. rewrite in_map_iff.
      intros (f & Hdir & Hf). now apply (Hno f Hf).
Qed.

Lemma reachable_one_row_per_direction (s : Session) :
  reachable s -> one_row_per_direction s.
Proof.
  induction 1 as [|c s Hreach IH]; [constructor|].
  apply run_one_row_per_direction; [|assumption].
  pose proof (reachable_constraints_ok s Hreach) as Hc.
  unfold constraints_ok in Hc. rewrite !andb_true_iff in Hc. tauto.
Qed.


(** X3. In every store reached from the empty store by service calls
    there is at most one Friend row per direction: two rows of the
    Friend table with the same user_id and the same friend_id are the
    same row, at the same position. *)
Theorem friend_rows_one_per_direction (s : Session) :
  reachable s ->
  NoDup (map direction (friends s))
  /\ (forall f g, In f (friends s) -> In g (friends s) ->
                  Friend.user_id f = Friend.user_id g ->
                  Friend.friend_id f = Friend.friend_id g -> f = g).
Proof.
  intros Hreach.
  pose proof (reachable_one_row_per_direction s Hreach) as Hnd.
  split; [exact Hnd|].
  unfold one_row_per_direction in Hnd.
  induction (friends s) as [|x l IH]; intros f g Hf Hg H1 H2; [destruct Hf|].
  inversion Hnd as [|? ? Hnotin Hnd']; subst.
  assert (Hdir : direction f = direction g)
    by (unfold direction; congruence).
  destruct Hf as [<-|Hf], Hg as [<-|Hg].
  - reflexivity.
  - exfalso. apply Hnotin. rewrite Hdir. now apply in_map.
  - exfalso. apply Hnotin. rewrite <- Hdir. now apply in_map.
  - now apply IH.
Qed.

Lemma friend_rows_one_per_direction_witness :
  let s := run_all [SendFriendRequest 1 2; SendFriendRequest 1 2;
                    SendFriendRequest 2 1; AcceptFriendRequest 2 1] empty_db in
  friends s = [Friend.mk (Some 1) 1 2 accepted; Friend.mk (Some 2) 2 1 pending]
  /\ NoDup (map direction (friends s)).
Proof.
  split; [reflexivity|].
  apply (friend_rows_one_per_direction
           (run_all [SendFriendRequest 1 2; SendFriendRequest 1 2;
                     SendFriendRequest 2 1; AcceptFriendRequest 2 1] empty_db)).
  repeat apply reachable_run. apply reachable_empty.
Defined.

Lemma pk_ok_keys {row : Type} (pk : row -> option Z) (t : list row) :
  pk_ok pk t = true ->
  (forall r, In r t -> exists k, pk r = Some k) /\ NoDup (map pk t).
Proof.
  intros Hok. apply pk_ok_NoDup in Hok as [Hsome Hnd]. split; [|exact Hnd].
  intros r Hr. specialize (Hsome r Hr).
  destruct (pk r) as [k|]; [eauto|contradiction].
Qed.

(** X4. Every store reached from the empty store by service calls
    satisfies the schema's constraints: in each of the five tables every
    row has a key and the keys of the rows, listed in table order, are
    pairwise distinct, and so are the clerk_user_id values of the User
    rows. *)
Theorem reachable_store_keys (s : Session) :
  reachable s ->
  ((forall r, In r (users s) -> exists k, User.id r = Some k) /\
   NoDup (map User.id (users s)))
  /\ ((forall r, In r (friends s) -> exists k, Friend.id r = Some k) /\
      NoDup (map Friend.id (friends s)))
  /\ ((forall r, In r (posts s) -> exists k, Post.id r = Some k) /\
      NoDup (map Post.id (posts s)))
  /\ ((forall r, In r (comments s) -> exists k, Comment.id r = Some k) /\
      NoDup (map Comment.id (comments s)))
  /\ ((forall r, In r (stories s) -> exists k, Story.id r = Some k) /\
      NoDup (map Story.id (stories s)))
  /\ NoDup (map User.clerk_user_id (users s)).
Proof.
  intros Hreach. pose proof (reachable_constraints_ok s Hreach) as Hc.
  unfold constraints_ok in Hc. rewrite !andb_true_iff in Hc.
  destruct Hc as [[[[[Hu Hclerk] Hf] Hp] Hcm] Hst].
  repeat (split; [now apply pk_ok_keys|]).
  now apply unique_strings_NoDup.
Qed.

Lemma reachable_store_keys_witness :
  let s := run_all [CreateUser (User.mk None "clerk_1" "Alice" 0);
                    CreateUser (User.mk None "clerk_1" "Alias" 1);
                    CreateUser (User.mk (Some 1) "clerk_3" "Carol" 2);
                    CreateUser (User.mk None "clerk_2" "Bob" 3)] empty_db in
  users s = [User.mk (Some 1) "clerk_1" "Alice" 0;
             User.mk (Some 2) "clerk_2" "Bob" 3]
  /\ NoDup (map User.id (users s))
  /\ NoDup (map User.clerk_user_id (users s)).
Proof.
  split; [reflexivity|].
  destruct (reachable_store_keys
              (run_all [CreateUser (User.mk None "clerk_1" "Alice" 0);
                        CreateUser (User.mk None "clerk_1" "Alias" 1);
                        CreateUser (User.mk (Some 1) "clerk_3" "Carol" 2);
                        CreateUser (User.mk None "clerk_2" "Bob" 3)] empty_db))
    as ((_ & Hkeys) & _ & _ & _ & _ & Hclerk).
  - repeat apply reachable_run. apply reachable_empty.
  - split; assumption.
Defined.

(** ** How the friend operations compose *)

Lemma set_friends_same (s : Session) (l : list Friend.t) :
  set_friends (friends s) (set_friends l s) = s.
Proof. now destruct s. Qed.

Lemma set_friends_twice (s : Session) (l l' : list Friend.t) :
  set_friends l' (set_friends l s) = set_friends l' s.
Proof. reflexivity. Qed.

(** A row appended under a generated key is the only one the key selects. *)
Lemma delete_appended {row : Type} (pk : row -> option Z) (t : list row)
    (r : row) :
  pk r = Some (next_pk pk t) -> delete pk r (t ++ [r]) = t.
Proof.
  intros Hk. unfold delete. rewrite Hk, filter_app. simpl.
  assert (Hr : pk_is pk (next_pk pk t) r = true) by now apply pk_is_true.
  rewrite Hr. simpl. rewrite app_nil_r. apply filter_all.
  intros x Hx. apply negb_true_iff.
  apply (proj1 (existsb_false _ _) (next_pk_fresh _ pk t) x Hx).
Qed.

Lemma update_appended {row : Type} (pk : row -> option Z) (t : list row)
    (r r' : row) :
  pk r = Some (next_pk pk t) -> update pk r r' (t ++ [r]) = t ++ [r'].
Proof.
  intros Hk. unfold update. rewrite Hk, map_app. simpl.
  assert (Hr : pk_is pk (next_pk pk t) r = true) by now apply pk_is_true.
  rewrite Hr. f_equal. rewrite <- (map_id t) at 2. apply map_ext_in.
  intros x Hx.
  now rewrite (proj1 (existsb_false _ _) (next_pk_fresh _ pk t) x Hx).
Qed.

(** A send-request that returned true found no row in its direction and
    appended the pending row. *)
Lemma send_friend_request_true (s s1 : Session) (a b : Z) :
  send_friend_request s a b = Return s1 true ->
  (forall f, In f (friends s) ->
             ~ (Friend.user_id f = a /\ Friend.friend_id f = b))
  /\ s1 = set_friends
            (friends s
             ++ [Friend.mk (Some (next_pk Friend.id (friends s))) a b pending])
            s.
Proof.
  unfold send_friend_request.
  destruct (find _ (friends s)) eqn:Hfind; [discriminate|].
  rewrite insert_generated by reflexivity. intros [= <-].
  split; [|reflexivity]. intros f Hf [H1 H2].
  pose proof (find_none _ _ Hfind f Hf) as Hc. simpl in Hc.
  rewrite H1, H2, !Z.eqb_refl in Hc. discriminate.
Qed.



Lemma find_app_miss {A : Type} (q : A -> bool) (l : list A) (x : A) :
  q x = false -> find q (l ++ [x]) = find q l.
Proof.
  intros Hx. induction l as [|a l IH]; simpl.
  - now rewrite Hx.
  - destruct (q a); [reflexivity|exact IH].
Qed.

(** X6. A send-request that returns true only adds a pending request:
    the accepted Friend rows are as before, so the stories returned to
    every user at every time are unchanged and remove-friend returns
    true for the same pairs of ids as before; and accept called by the
    target for the requester now returns true. *)
Theorem send_request_only_pending (s s1 : Session) (A B : Z) :
  send_friend_request s A B = Return s1 true ->
  filter (fun f => String.eqb (Friend.status f) accepted) (friends s1)
  = filter (fun f => String.eqb (Friend.status f) accepted) (friends s)
  /\ (forall now k,
        get_stories_for_user s1 now k = get_stories_for_user s now k)
  /\ (forall a b,
        (exists s', remove_friend s1 a b = Return s' true) <->
        (exists s', remove_friend s a b = Return s' true))
  /\ (exists s2, accept_friend_request s1 B A = Return s2 true).
Proof.
  intros Hsend. apply send_friend_request_true in Hsend as [Hno ->].
  set (r := Friend.mk (Some (next_pk Friend.id (friends s))) A B pending).
  split; [|split; [|split]].
  - simpl. rewrite filter_app. simpl. now rewrite app_nil_r.
  - intros now k. unfold get_stories_for_user. simpl.
    rewrite filter_app. simpl. rewrite andb_false_r. now rewrite app_nil_r.
  - intros a b. unfold remove_friend. simpl.
    rewrite find_app_miss by (simpl; apply andb_false_r).
    destruct (find _ (friends s)).
    + split; intros _; eexists; reflexivity.
    + split; intros [s' [=]].
  - unfold accept_friend_request. simpl.
    rewrite find_app_last; [eexists; reflexivity| |].
    + intros y Hy. apply not_true_is_false. intros Hc.
      apply andb_true_iff in Hc as [Hc _].
      apply andb_true_iff in Hc as [H1 H2]. apply Z.eqb_eq in H1, H2.
      now apply (Hno y Hy).
    + simpl. now rewrite !Z.eqb_refl.
Qed.

Lemma send_request_only_pending_witness :
  let s1 := db_after (send_friend_request db_story 2 1) db_story in
  filter (fun f => String.eqb (Friend.status f) accepted) (friends s1)
  = filter (fun f => String.eqb (Friend.status f) accepted) (friends db_story)
  /\ (forall now k,
        get_stories_for_user s1 now k = get_stories_for_user db_story now k)
  /\ (forall a b,
        (exists s', remove_friend s1 a b = Return s' true) <->
        (exists s', remove_friend db_story a b = Return s' true))
  /\ (exists s2, accept_friend_request s1 1 2 = Return s2 true).
Proof.
  apply (send_request_only_pending db_story _ 2 1). reflexivity.
Defined.

(** X7. Undoing a request restores the store.  After a send-request(A,B)
    that returned true, reject(B,A) returns true and gives back the
    store as it was before the request.  When moreover no accepted row
    B -> A existed, accept(B,A) returns true and a remove-friend called
    with the two ids in either order then returns true and gives back
    the store as it was before the request. *)
Theorem friend_request_round_trips (s s1 : Session) (A B : Z) :
  send_friend_request s A B = Return s1 true ->
  reject_friend_request s1 B A = Return s true
  /\ ((forall f, In f (friends s) ->
                 Friend.user_id f = B -> Friend.friend_id f = A ->
                 Friend.status f <> accepted) ->
      exists s2,
        accept_friend_request s1 B A = Return s2 true /\
        remove_friend s2 A B = Return s true /\
        remove_friend s2 B A = Return s true).
Proof.
  intros Hsend. apply send_friend_request_true in Hsend as [Hno ->].
  set (n := next_pk Friend.id (friends s)).
  set (r := Friend.mk (Some n) A B pending).
  assert (Hfind :
    find (fun f => (Friend.user_id f =? A) && (Friend.friend_id f =? B)
                   && String.eqb (Friend.status f) pending)
         (friends s ++ [r]) = Some r).
  { apply find_app_last.
    - intros y Hy. apply not_true_is_false. intros Hc.
      apply andb_true_iff in Hc as [Hc _].
      apply andb_true_iff in Hc as [H1 H2]. apply Z.eqb_eq in H1, H2.
      now apply (Hno y Hy).
    - simpl. now rewrite !Z.eqb_refl. }
  split.
  - unfold reject_friend_request. simpl. rewrite Hfind. simpl.
    rewrite delete_appended by reflexivity. now rewrite set_friends_same.
  - intros Hrev.
    set (r' := Friend.set_status accepted r).
    exists (set_friends (friends s ++ [r']) s).
    split.
    { unfold accept_friend_request. simpl. rewrite Hfind. simpl.
      now rewrite update_appended by reflexivity. }
    assert (Hfind' : forall a b, (a = A /\ b = B) \/ (a = B /\ b = A) ->
      find (fun f => (((Friend.user_id f =? a) && (Friend.friend_id f =? b))
                      || ((Friend.user_id f =? b) && (Friend.friend_id f =? a)))
                     && String.eqb (Friend.status f) accepted)
           (friends s ++ [r']) = Some r').
    { intros a b Hab. apply find_app_last.
      - intros y Hy. apply not_true_is_false. intros Hc.
        apply andb_true_iff in Hc as [Hc Hst]. apply String.eqb_eq in Hst.
        apply orb_true_iff in Hc as [Hc|Hc];
          apply andb_true_iff in Hc as [H1 H2]; apply Z.eqb_eq in H1, H2;
          destruct Hab as [[-> ->]|[-> ->]];
          solve [now apply (Hno y Hy) | now apply (Hrev y Hy)].
      - simpl. destruct Hab as [[-> ->]|[-> ->]];
          rewrite !Z.eqb_refl; simpl; now rewrite ?orb_true_r. }
    split; unfold remove_friend; simpl; rewrite Hfind' by auto; simpl;
      rewrite delete_appended by reflexivity; now rewrite set_friends_same.
Qed.

Lemma friend_request_round_trips_witness :
  let s1 := db_after (send_friend_request db_two_users 1 2) db_two_users in
  reject_friend_request s1 2 1 = Return db_two_users true
  /\ exists s2,
       accept_friend_request s1 2 1 = Return s2 true /\
       remove_friend s2 1 2 = Return db_two_users true /\
       remove_friend s2 2 1 = Return db_two_users true.
Proof.
  split.
  - apply (proj1 (friend_request_round_trips db_two_users _ 1 2 eq_refl)).
  - apply (proj2 (friend_request_round_trips db_two_users _ 1 2 eq_refl)).
    simpl. tauto.
Defined.

(** ** Posts, comments and replies *)

Section OrderByAscFacts.
Variable row : Type.
Variable key : row -> Z.

Lemma place_asc_sorted (x : row) (l : list row) :
  StronglySorted (fun a b => key a <= key b) l ->
  StronglySorted (fun a b => key a <= key b) (place_asc row key x l).
Proof.
  induction 1 as [|y l Hs IH Hall]; simpl.
  - constructor; constructor.
  - destruct (key x <=? key y) eqn:Hc.
    + apply Z.leb_le in Hc. constructor; [now constructor|].
      constructor; [assumption|].
      eapply Forall_impl; [|exact Hall]. simpl. intros a Ha. lia.
    + apply Z.leb_gt in Hc. constructor; [assumption|].
      apply Permutation_Forall with (x :: l).
      * symmetry. apply place_asc_perm.
      * constructor; [lia|assumption].
Qed.

Lemma order_by_asc_sorted (l : list row) :
  StronglySorted (fun a b => key a <= key b) (order_by_asc key l).
Proof.
  induction l as [|x l IH]; simpl; [constructor|].
  now apply place_asc_sorted.
Qed.

End OrderByAscFacts.

Lemma pk_ok_rows_distinct {row : Type} (pk : row -> option Z) (t : list row) :
  pk_ok pk t = true -> NoDup t.
Proof.
  intros Hok. apply pk_ok_NoDup in Hok as [_ Hnd].
  now apply NoDup_map_inv in Hnd.
Qed.

Lemma NoDup_filter_list {A : Type} (q : A -> bool) (l : list A) :
  NoDup l -> NoDup (filter q l).
Proof.
  intros H. rewrite <- (map_id (filter q l)). apply NoDup_map_filter.
  now rewrite map_id.
Qed.

Lemma get_posts_for_user_In (s : Session) (user_id : Z) (p : Post.t) :
  In p (get_posts_for_user s user_id) <->
  In p (posts s) /\ Post.user_id p = user_id.
Proof.
  unfold get_posts_for_user.
  split.
  - intros H. apply (Permutation_in _ (order_by_desc_perm _ _ _)) in H.
    apply filter_In in H as [H1 H2]. apply Z.eqb_eq in H2. auto.
  - intros [H1 H2].
    apply (Permutation_in _ (Permutation_sym (order_by_desc_perm _ _ _))).
    apply filter_In. split; [assumption|now apply Z.eqb_eq].
Qed.

Lemma get_timeline_posts_In (s : Session) (user_id : Z) (friend_ids : list Z)
    (p : Post.t) :
  In p (get_timeline_posts s user_id friend_ids) <->
  In p (posts s) /\ (Post.user_id p = user_id \/ In (Post.user_id p) friend_ids).
Proof.
  unfold get_timeline_posts.
  split.
  - intros H. apply (Permutation_in _ (order_by_desc_perm _ _ _)) in H.
    apply filter_In in H as [H1 H2]. apply in_true in H2. simpl in H2.
    intuition auto.
  - intros [H1 H2].
    apply (Permutation_in _ (Permutation_sym (order_by_desc_perm _ _ _))).
    apply filter_In. split; [assumption|]. apply in_true. simpl.
    intuition auto.
Qed.

(** X8. get_posts_for_user(user_id) returns, newest first, exactly the
    Post rows owned by user_id; it is what the timeline returns for an
    empty friend list, and every post it returns is in the timeline of
    user_id for any friend list. *)
Theorem get_posts_for_user_is_own_timeline (s : Session) (user_id : Z) :
  (exists owned : Post.t -> bool,
      Permutation (get_posts_for_user s user_id) (filter owned (posts s)) /\
      forall p, owned p = true <-> Post.user_id p = user_id)
  /\ StronglySorted (fun a b => Post.created_at b <= Post.created_at a)
       (get_posts_for_user s user_id)
  /\ get_timeline_posts s user_id [] = get_posts_for_user s user_id
  /\ (forall friend_ids p,
        In p (get_posts_for_user s user_id) ->
        In p (get_timeline_posts s user_id friend_ids)).
Proof.
  split; [|split; [|split]].
  - eexists. split; [apply order_by_desc_perm|]. intros p. cbv beta.
    apply Z.eqb_eq.
  - apply order_by_desc_sorted.
  - unfold get_timeline_posts, get_posts_for_user. f_equal.
    apply filter_ext. intros p. unfold in_. simpl. apply orb_false_r.
  - intros friend_ids p Hp. apply get_posts_for_user_In in Hp as [H1 H2].
    apply get_timeline_posts_In. auto.
Qed.

(** X9. In a store that satisfies the primary-key constraint the
    timeline lists no post twice, also when friend_ids repeats an id or
    contains user_id itself; and the timeline does not depend on the
    order or the repetitions of friend_ids. *)
Theorem get_timeline_posts_no_duplicates (s : Session) (user_id : Z)
    (friend_ids : list Z) :
  pk_ok Post.id (posts s) = true ->
  NoDup (get_timeline_posts s user_id friend_ids)
  /\ (forall friend_ids',
        (forall k, In k (user_id :: friend_ids) <->
                   In k (user_id :: friend_ids')) ->
        get_timeline_posts s user_id friend_ids'
        = get_timeline_posts s user_id friend_ids).
Proof.
  intros Hok. split.
  - unfold get_timeline_posts.
    apply (Permutation_NoDup (Permutation_sym (order_by_desc_perm _ _ _))).
    apply NoDup_filter_list. now apply pk_ok_rows_distinct with Post.id.
  - intros friend_ids' Hsame. unfold get_timeline_posts. f_equal.
    apply filter_ext. intros p.
    destruct (in_ (Post.user_id p) ([user_id] ++ friend_ids)) eqn:Hin.
    + apply in_true. apply in_true in Hin. simpl in *. now apply Hsame.
    + apply not_true_is_false. intros Hin'. apply in_true in Hin'.
      apply not_true_iff_false in Hin. apply Hin. apply in_true.
      simpl in *. now apply Hsame.
Qed.

Lemma get_timeline_posts_no_duplicates_witness :
  NoDup (get_timeline_posts db_posts 1 [3; 1; 3])
  /\ get_timeline_posts db_posts 1 [3] = get_timeline_posts db_posts 1 [3; 1; 3].
Proof.
  split.
  - apply (get_timeline_posts_no_duplicates db_posts 1 [3; 1; 3]).
    reflexivity.
  - apply (proj2 (get_timeline_posts_no_duplicates db_posts 1 [3; 1; 3]
                    eq_refl)).
    intros k. simpl. tauto.
Defined.

Lemma get_replies_for_comment_In (s : Session) (comment_id : Z)
    (c : Comment.t) :
  In c (get_replies_for_comment s comment_id) <->
  In c (comments s) /\ Comment.parent_comment_id c = Some comment_id.
Proof.
  unfold get_replies_for_comment. split.
  - intros H. apply (Permutation_in _ (order_by_asc_perm _ _ _)) in H.
    apply filter_In in H as [H1 H2].
    destruct (Comment.parent_comment_id c) as [k|]; [|discriminate].
    apply Z.eqb_eq in H2. subst. auto.
  - intros [H1 H2].
    apply (Permutation_in _ (Permutation_sym (order_by_asc_perm _ _ _))).
    apply filter_In. split; [assumption|]. rewrite H2. apply Z.eqb_refl.
Qed.

(** X10. get_comments_for_post(post_id) returns, oldest first, exactly
    the Comment rows with that post_id, replies included, as one flat
    list; get_replies_for_comment(comment_id) returns, oldest first,
    exactly the Comment rows whose parent is comment_id.  A comment
    without parent is in no reply list, and every reply is also in the
    comment list of its own post_id. *)
Theorem comments_flat_oldest_first (s : Session) (post_id comment_id : Z) :
  (exists q : Comment.t -> bool,
      Permutation (get_comments_for_post s post_id) (filter q (comments s)) /\
      forall c, q c = true <-> Comment.post_id c = post_id)
  /\ StronglySorted (fun a b => Comment.created_at a <= Comment.created_at b)
       (get_comments_for_post s post_id)
  /\ (exists q : Comment.t -> bool,
         Permutation (get_replies_for_comment s comment_id)
                     (filter q (comments s)) /\
         forall c, q c = true <-> Comment.parent_comment_id c = Some comment_id)
  /\ StronglySorted (fun a b => Comment.created_at a <= Comment.created_at b)
       (get_replies_for_comment s comment_id)
  /\ (forall c, In c (get_replies_for_comment s comment_id) ->
                In c (get_comments_for_post s (Comment.post_id c))).
Proof.
  split; [|split; [|split; [|split]]].
  - eexists. split; [apply order_by_asc_perm|]. intros c. cbv beta.
    apply Z.eqb_eq.
  - apply order_by_asc_sorted.
  - eexists. split; [apply order_by_asc_perm|]. intros c. cbv beta.
    destruct (Comment.parent_comment_id c) as [k|].
    + rewrite Z.eqb_eq. split; congruence.
    + split; discriminate.
  - apply order_by_asc_sorted.
  - intros c Hc. apply get_replies_for_comment_In in Hc as [Hc _].
    apply get_comments_for_post_In. auto.
Qed.

Example comments_sample :
  get_comments_for_post db_comments 1
  = [Comment.mk (Some 1) 1 2 None "first" 20;
     Comment.mk (Some 3) 1 1 (Some 1) "reply" 30]
  /\ get_replies_for_comment db_comments 1
     = [Comment.mk (Some 3) 1 1 (Some 1) "reply" 30]
  /\ get_replies_for_comment db_comments 3 = []
  /\ get_comments_for_post db_comments 7 = [].
Proof. repeat split. Qed.

Lemma set_posts_same (s : Session) (l : list Post.t) :
  set_posts (posts s) (set_posts l s) = s.
Proof. now destruct s. Qed.

Lemma get_appended {row : Type} (pk : row -> option Z) (t : list row)
    (r : row) :
  pk r = Some (next_pk pk t) -> get pk (next_pk pk t) (t ++ [r]) = Some r.
Proof.
  intros Hk. unfold get. apply find_app_last.
  - intros y Hy. apply (proj1 (existsb_false _ _) (next_pk_fresh _ pk t) y Hy).
  - now apply pk_is_true.
Qed.

(** X11. add_comment of a comment without key never fails and checks
    nothing: whatever the Post and Comment tables hold, the comment is
    stored under a key no Comment row had, with its fields as given, and
    it is then in get_comments_for_post of its post_id and, when it
    names a parent, in get_replies_for_comment of that parent; the
    comment lists of the other posts are as before.  add_reply is the
    same operation. *)
Theorem add_comment_unchecked (s : Session) (c : Comment.t) :
  Comment.id c = None ->
  exists k,
    let c' := Comment.set_id (Some k) c in
    let s' := set_comments (comments s ++ [c']) s in
    (forall x, In x (comments s) -> Comment.id x <> Some k)
    /\ add_comment s c = Return s' c'
    /\ add_reply s c = Return s' c'
    /\ In c' (get_comments_for_post s' (Comment.post_id c))
    /\ (forall p, Comment.parent_comment_id c = Some p ->
                  In c' (get_replies_for_comment s' p))
    /\ (forall p, p <> Comment.post_id c ->
                  get_comments_for_post s' p = get_comments_for_post s p).
Proof.
  intros Hid. exists (next_pk Comment.id (comments s)). cbv zeta.
  split; [|split; [|split; [|split; [|split]]]].
  - intros x Hx Hk. pose proof (next_pk_above _ _ _ x _ Hx Hk). lia.
  - unfold add_comment. now rewrite insert_generated.
  - unfold add_reply. now rewrite insert_generated.
  - apply get_comments_for_post_In. simpl. split; [|reflexivity].
    apply in_or_app. right. now left.
  - intros p Hp. apply get_replies_for_comment_In. simpl.
    split; [|assumption]. apply in_or_app. right. now left.
  - intros p Hp. unfold get_comments_for_post. simpl. rewrite filter_app.
    simpl. replace (Comment.post_id c =? p) with false.
    + now rewrite app_nil_r.
    + symmetry. apply Z.eqb_neq. congruence.
Qed.

Lemma add_comment_unchecked_witness :
  exists k,
    let c := Comment.mk None 9 7 (Some 5) "orphan" 40 in
    let c' := Comment.set_id (Some k) c in
    let s' := set_comments (comments db_comments ++ [c']) db_comments in
    (forall x, In x (comments db_comments) -> Comment.id x <> Some k)
    /\ add_comment db_comments c = Return s' c'
    /\ add_reply db_comments c = Return s' c'
    /\ In c' (get_comments_for_post s' (Comment.post_id c))
    /\ (forall p, Comment.parent_comment_id c = Some p ->
                  In c' (get_replies_for_comment s' p))
    /\ (forall p, p <> Comment.post_id c ->
                  get_comments_for_post s' p = get_comments_for_post db_comments p).
Proof.
  apply (add_comment_unchecked db_comments
           (Comment.mk None 9 7 (Some 5) "orphan" 40)).
  reflexivity.
Defined.

(** X12. create_post of a post without key never fails: the post is
    stored last under a key no Post row had and returned with that key;
    session.get finds it under the key, and delete_post of the key then
    returns true and gives back the store as it was before.  A post
    that brings a key already in the table raises and stores nothing. *)
Theorem create_post_round_trip (s : Session) (p : Post.t) :
  (Post.id p = None ->
   exists k,
     let p' := Post.set_id (Some k) p in
     let s' := set_posts (posts s ++ [p']) s in
     (forall x, In x (posts s) -> Post.id x <> Some k)
     /\ create_post s p = Return s' p'
     /\ get Post.id k (posts s') = Some p'
     /\ delete_post s' k = Return s true)
  /\ (forall k x, Post.id p = Some k -> In x (posts s) -> Post.id x = Some k ->
                  create_post s p = Raise).
Proof.
  split.
  - intros Hid. exists (next_pk Post.id (posts s)). cbv zeta.
    split; [|split; [|split]].
    + intros x Hx Hk. pose proof (next_pk_above _ _ _ x _ Hx Hk). lia.
    + unfold create_post. now rewrite insert_generated.
    + simpl. now apply get_appended.
    + unfold delete_post. simpl. rewrite get_appended by reflexivity.
      rewrite delete_appended by reflexivity. now rewrite set_posts_same.
  - intros k x Hk Hx Hxk. unfold create_post, insert. rewrite Hk.
    replace (existsb (pk_is Post.id k) (posts s)) with true; [reflexivity|].
    symmetry. apply existsb_exists. exists x. split; [assumption|].
    now apply pk_is_true.
Qed.

Lemma create_post_round_trip_witness :
  (exists k,
      let p := Post.mk None 1 "new" None None 60 60 in
      let p' := Post.set_id (Some k) p in
      let s' := set_posts (posts db_posts ++ [p']) db_posts in
      (forall x, In x (posts db_posts) -> Post.id x <> Some k)
      /\ create_post db_posts p = Return s' p'
      /\ get Post.id k (posts s') = Some p'
      /\ delete_post s' k = Return db_posts true)
  /\ create_post db_posts (Post.mk (Some 2) 1 "dup" None None 60 60) = Raise.
Proof.
  split.
  - apply (proj1 (create_post_round_trip db_posts
                    (Post.mk None 1 "new" None None 60 60))).
    reflexivity.
  - apply (proj2 (create_post_round_trip db_posts
                    (Post.mk (Some 2) 1 "dup" None None 60 60))
             2 (Post.mk (Some 2) 2 "b" None None 30 30)).
    + reflexivity.
    + simpl. auto.
    + reflexivity.
Defined.

(** X13. delete_comment(comment_id) returns true exactly when a Comment
    row with that key exists, and false with the store unchanged
    otherwise.  It does not cascade: the rows of the other tables and
    every Comment row with another key are as before, so the replies
    whose parent is the deleted comment are still returned by
    get_replies_for_comment(comment_id), and afterwards no Comment row
    has the key. *)
Theorem delete_comment_orphans_replies (s : Session) (comment_id : Z) :
  ((exists s', delete_comment s comment_id = Return s' true) <->
   exists c, In c (comments s) /\ Comment.id c = Some comment_id)
  /\ ((forall c, In c (comments s) -> Comment.id c <> Some comment_id) ->
      delete_comment s comment_id = Return s false)
  /\ (forall s',
        delete_comment s comment_id = Return s' true ->
        users s' = users s /\ friends s' = friends s /\
        posts s' = posts s /\ stories s' = stories s /\
        (forall c, In c (comments s') <->
                   In c (comments s) /\ Comment.id c <> Some comment_id) /\
        (forall k r, In r (get_replies_for_comment s k) ->
                     Comment.id r <> Some comment_id ->
                     In r (get_replies_for_comment s' k))).
Proof.
  unfold delete_comment, get.
  destruct (find (pk_is Comment.id comment_id) (comments s)) as [c|] eqn:Hfind.
  - apply find_some in Hfind as [Hc Hk]. apply pk_is_true in Hk.
    split; [|split].
    + split; [intros _; exists c; auto|intros _; eexists; reflexivity].
    + intros Hno. exfalso. now apply (Hno c Hc).
    + intros s' [= <-]. simpl. repeat split; auto.
      * unfold delete in H. rewrite Hk in H. now apply filter_In in H.
      * unfold delete in H. rewrite Hk in H. apply filter_In in H as [_ H].
        apply negb_true_iff in H. now apply pk_is_false in H.
      * intros [Hin Hne]. unfold delete. rewrite Hk. apply filter_In.
        split; [assumption|]. apply negb_true_iff. now apply pk_is_false.
      * intros k r Hr Hne. apply get_replies_for_comment_In in Hr as [Hr Hp].
        apply get_replies_for_comment_In. simpl. split; [|assumption].
        unfold delete. rewrite Hk. apply filter_In.
        split; [assumption|]. apply negb_true_iff. now apply pk_is_false.
  - split; [|split].
    + split; [intros [s' [=]]|]. intros (c & Hc & Hk).
      pose proof (find_none _ _ Hfind c Hc) as Hn.
      apply pk_is_false in Hn. contradiction.
    + reflexivity.
    + intros s' [=].
Qed.

Lemma delete_comment_orphans_replies_witness :
  let s' := db_after (delete_comment db_comments 1) db_comments in
  delete_comment db_comments 7 = Return db_comments false
  /\ get_replies_for_comment s' 1 = [Comment.mk (Some 3) 1 1 (Some 1) "reply" 30]
  /\ (forall k r, In r (get_replies_for_comment db_comments k) ->
                  Comment.id r <> Some 1 ->
                  In r (get_replies_for_comment s' k)).
Proof.
  split; [|split; [reflexivity|]].
  - apply (proj1 (proj2 (delete_comment_orphans_replies db_comments 7))).
    simpl. intros c [<-|[<-|[<-|[]]]]; discriminate.
  - apply (proj2 (proj2 (delete_comment_orphans_replies db_comments 1))
             _ eq_refl).
Defined.

(** ** Users *)

Lemma existsb_filter_negb {A : Type} (q : A -> bool) (l : list A) :
  existsb q (filter (fun x => negb (q x)) l) = false.
Proof.
  apply existsb_false. intros x Hx. apply filter_In in Hx as [_ Hx].
  now apply negb_true_iff.
Qed.

Lemma clerk_taken_true (c : string) (l : list User.t) :
  clerk_taken c l = true <-> exists u, In u l /\ User.clerk_user_id u = c.
Proof.
  unfold clerk_taken. rewrite existsb_exists.
  split; intros (u & Hu & Hc); exists u; split; auto; now apply String.eqb_eq.
Qed.

(** X14. create_user of a user without key whose clerk_user_id no User
    row has stores it last under a key no User row had; get_user_by_id
    of that key then returns it with the name and the clerk_user_id as
    given, and a later create_user with the same clerk_user_id raises
    and stores nothing.  create_user with a clerk_user_id some User row
    already has raises. *)
Theorem create_user_unique_clerk (s : Session) (user : User.t) :
  ((exists u, In u (users s) /\
              User.clerk_user_id u = User.clerk_user_id user) ->
   create_user s user = Raise)
  /\ (User.id user = None ->
      (forall u, In u (users s) ->
                 User.clerk_user_id u <> User.clerk_user_id user) ->
      exists k,
        let user' := User.set_id (Some k) user in
        let s' := set_users (users s ++ [user']) s in
        (forall u, In u (users s) -> User.id u <> Some k)
        /\ create_user s user = Return s' user'
        /\ get_user_by_id s' k = Some user'
        /\ User.name user' = User.name user
        /\ User.clerk_user_id user' = User.clerk_user_id user
        /\ (forall other,
              User.clerk_user_id other = User.clerk_user_id user ->
              create_user s' other = Raise)).
Proof.
  split.
  - intros Hex. unfold create_user.
    now rewrite (proj2 (clerk_taken_true _ _) Hex).
  - intros Hid Hfree. exists (next_pk User.id (users s)). cbv zeta.
    split; [|split; [|split; [|split; [|split]]]]; try reflexivity.
    + intros u Hu Hk. pose proof (next_pk_above _ _ _ u _ Hu Hk). lia.
    + unfold create_user.
      replace (clerk_taken _ _) with false.
      * now rewrite insert_generated.
      * symmetry. apply clerk_taken_false. rewrite in_map_iff.
        intros (u & Hc & Hu). now apply (Hfree u Hu).
    + apply (get_appended User.id). reflexivity.
    + intros other Hc. unfold create_user.
      replace (clerk_taken _ _) with true; [reflexivity|].
      symmetry. apply clerk_taken_true. eexists. split.
      * simpl. apply in_or_app. right. now left.
      * simpl. congruence.
Qed.

Lemma create_user_unique_clerk_witness :
  create_user db_two_users (User.mk None "clerk_2" "Robert" 9) = Raise
  /\ exists k,
       let user := User.mk None "clerk_3" "Carol" 9 in
       let user' := User.set_id (Some k) user in
       let s' := set_users (users db_two_users ++ [user']) db_two_users in
       (forall u, In u (users db_two_users) -> User.id u <> Some k)
       /\ create_user db_two_users user = Return s' user'
       /\ get_user_by_id s' k = Some user'
       /\ User.name user' = User.name user
       /\ User.clerk_user_id user' = User.clerk_user_id user
       /\ (forall other,
             User.clerk_user_id other = User.clerk_user_id user ->
             create_user s' other = Raise).
Proof.
  split.
  - apply (proj1 (create_user_unique_clerk db_two_users
                    (User.mk None "clerk_2" "Robert" 9))).
    exists bob. simpl. auto.
  - apply (proj2 (create_user_unique_clerk db_two_users
                    (User.mk None "clerk_3" "Carol" 9))).
    + reflexivity.
    + simpl. intros u [<-|[<-|[]]]; discriminate.
Defined.

Lemma others_In (s : Session) (k : Z) (x : User.t) :
  In x (filter (fun u => negb (pk_is User.id k u)) (users s)) <->
  In x (users s) /\ User.id x <> Some k.
Proof.
  rewrite filter_In, negb_true_iff. now rewrite (pk_is_false _ User.id).
Qed.

(** X15. update_user(user_id, fields) returns None, the store unchanged,
    when no User row has the key.  In a store that satisfies the
    primary-key constraint, when the row exists, the key is not among
    the fields set and no other User row has the resulting
    clerk_user_id, it returns the row with the fields set overwritten
    and the others kept, and that row replaces the old one in place,
    every other row unchanged; when another User row has the resulting
    clerk_user_id it raises and stores nothing. *)
Theorem update_user_merges_fields (s : Session) (user_id : Z)
    (updated_user : UserUpdate) :
  ((forall u, In u (users s) -> User.id u <> Some user_id) ->
   update_user s user_id updated_user = Return s None)
  /\ (forall existing,
        pk_ok User.id (users s) = true ->
        In existing (users s) -> User.id existing = Some user_id ->
        upd_id updated_user = None ->
        let u' := setattrs updated_user existing in
        User.id u' = Some user_id
        /\ (forall v, upd_name updated_user = Some v -> User.name u' = v)
        /\ (upd_name updated_user = None -> User.name u' = User.name existing)
        /\ ((forall x, In x (users s) -> User.id x <> Some user_id ->
                       User.clerk_user_id x <> User.clerk_user_id u') ->
            exists l1 l2,
              users s = l1 ++ existing :: l2 /\
              update_user s user_id updated_user
              = Return (set_users (l1 ++ u' :: l2) s) (Some u'))
        /\ ((exists x, In x (users s) /\ User.id x <> Some user_id /\
                       User.clerk_user_id x = User.clerk_user_id u') ->
            update_user s user_id updated_user = Raise)).
Proof.
  split.
  - intros Hno. unfold update_user, get_user_by_id.
    replace (find _ (users s)) with (@None User.t); [reflexivity|].
    symmetry. apply find_none_iff. intros u Hu.
    apply pk_is_false. now apply Hno.
  - intros existing Hok Hin Hid Hupd u'.
    assert (Hget : get_user_by_id s user_id = Some existing)
      by now apply (get_unique User.id).
    assert (Hid' : User.id u' = Some user_id).
    { unfold u', setattrs. simpl. now rewrite Hupd. }
    split; [exact Hid'|]. split; [|split; [|split]].
    + intros v Hv. unfold u', setattrs. simpl. now rewrite Hv.
    + intros Hv. unfold u', setattrs. simpl. now rewrite Hv.
    + intros Hfree.
      destruct (select_split User.id (users s) existing user_id Hok Hin Hid)
        as (l1 & l2 & Hsplit & Hothers & Hupdate).
      exists l1, l2. split; [assumption|].
      unfold update_user. rewrite Hget. cbv zeta. fold u'. rewrite Hid'.
      rewrite existsb_filter_negb. simpl.
      replace (clerk_taken _ _) with false; [now rewrite Hupdate|].
      symmetry. apply clerk_taken_false. rewrite in_map_iff.
      intros (x & Hc & Hx). apply others_In in Hx as [Hx Hne].
      now apply (Hfree x Hx Hne).
    + intros (x & Hx & Hne & Hc).
      unfold update_user. rewrite Hget. cbv zeta. fold u'. rewrite Hid'.
      rewrite existsb_filter_negb. simpl.
      replace (clerk_taken _ _) with true; [reflexivity|].
      symmetry. apply clerk_taken_true. exists x. split; [|assumption].
      apply others_In. auto.
Qed.

Lemma update_user_merges_fields_witness :
  update_user db_two_users 7 no_update = Return db_two_users None
  /\ (exists l1 l2,
         users db_two_users = l1 ++ bob :: l2 /\
         update_user db_two_users 2 (mkUserUpdate None None (Some "Bobby"%string) None)
         = Return (set_users (l1 ++ User.mk (Some 2) "clerk_2" "Bobby" 0 :: l2)
                             db_two_users)
                  (Some (User.mk (Some 2) "clerk_2" "Bobby" 0)))
  /\ update_user db_two_users 2 (mkUserUpdate None (Some "clerk_1"%string) None None)
     = Raise.
Proof.
  split; [|split].
  - apply (proj1 (update_user_merges_fields db_two_users 7 no_update)).
    simpl. intros u [<-|[<-|[]]]; discriminate.
  - apply (proj2 (update_user_merges_fields db_two_users 2
                    (mkUserUpdate None None (Some "Bobby"%string) None))
             bob eq_refl (or_intror (or_introl eq_refl)) eq_refl eq_refl).
    simpl. intros x [<-|[<-|[]]].
    + intros _. discriminate.
    + intros H. now contradiction H.
  - apply (proj2 (update_user_merges_fields db_two_users 2
                    (mkUserUpdate None (Some "clerk_1"%string) None None))
             bob eq_refl (or_intror (or_introl eq_refl)) eq_refl eq_refl).
    exists alice. simpl. repeat split; auto. discriminate.
Defined.

(** X16. delete_user(user_id) returns false, the store unchanged, when no
    User row has the key.  Otherwise it returns true and removes the
    User rows with that key and nothing else: the Friend, Post, Comment
    and Story rows that name the user stay, so timelines and visible
    stories are as before, the stories of the deleted user included,
    while no User row has the key any more and get_user_by_id finds
    nobody. *)
Theorem delete_user_no_cascade (s : Session) (user_id : Z) :
  ((forall u, In u (users s) -> User.id u <> Some user_id) ->
   delete_user s user_id = Return s false)
  /\ (forall u, In u (users s) -> User.id u = Some user_id ->
      exists s',
        delete_user s user_id = Return s' true /\
        friends s' = friends s /\ posts s' = posts s /\
        comments s' = comments s /\ stories s' = stories s /\
        (forall x, In x (users s') <->
                   In x (users s) /\ User.id x <> Some user_id) /\
        get_user_by_id s' user_id = None /\
        (forall now a,
            get_stories_for_user s' now a = get_stories_for_user s now a) /\
        (forall a friend_ids,
            get_timeline_posts s' a friend_ids
            = get_timeline_posts s a friend_ids)).
Proof.
  split.
  - intros Hno. unfold delete_user, get_user_by_id.
    replace (find _ (users s)) with (@None User.t); [reflexivity|].
    symmetry. apply find_none_iff. intros u Hu.
    apply pk_is_false. now apply Hno.
  - intros u Hu Hid. unfold delete_user, get_user_by_id.
    destruct (find (pk_is User.id user_id) (users s)) as [e|] eqn:Hfind.
    + apply find_some in Hfind as [He Hk]. apply pk_is_true in Hk.
      eexists. split; [reflexivity|]. simpl.
      assert (Hrows : forall x, In x (delete User.id e (users s)) <->
                                In x (users s) /\ User.id x <> Some user_id).
      { intros x. unfold delete. rewrite Hk. apply others_In. }
      do 4 (split; [reflexivity|]).
      split; [exact Hrows|]. split; [|split; reflexivity].
      apply find_none_iff. intros x Hx. apply Hrows in Hx as [_ Hx].
      now apply pk_is_false.
    + pose proof (find_none _ _ Hfind u Hu) as Hn.
      apply pk_is_false in Hn. contradiction.
Qed.

Lemma delete_user_no_cascade_witness :
  delete_user db_story 7 = Return db_story false
  /\ exists s',
       delete_user db_story 2 = Return s' true /\
       friends s' = friends db_story /\ posts s' = posts db_story /\
       comments s' = comments db_story /\ stories s' = stories db_story /\
       (forall x, In x (users s') <->
                  In x (users db_story) /\ User.id x <> Some 2) /\
       get_user_by_id s' 2 = None /\
       (forall now a,
           get_stories_for_user s' now a = get_stories_for_user db_story now a) /\
       (forall a friend_ids,
           get_timeline_posts s' a friend_ids
           = get_timeline_posts db_story a friend_ids).
Proof.
  split.
  - apply (proj1 (delete_user_no_cascade db_story 7)).
    simpl. intros u [<-|[<-|[]]]; discriminate.
  - apply (proj2 (delete_user_no_cascade db_story 2) bob).
    + simpl. auto.
    + reflexivity.
Defined.

Example deleted_user_story_still_listed :
  let s' := db_after (delete_user db_story 2) db_story in
  users s' = [alice]
  /\ friends s' = [Friend.mk (Some 1) 1 2 accepted]
  /\ get_stories_for_user s' 50 1
     = [Story.mk (Some 1) 2 "http://m/2.png" "image" 0 100].
Proof. repeat split. Qed.

Lemma firstn_plus {A : Type} (a b : nat) (l : list A) :
  firstn (a + b) l = firstn a l ++ firstn b (skipn a l).
Proof.
  revert l. induction a as [|a IH]; intros l; simpl; [reflexivity|].
  destruct l as [|x l]; simpl.
  - now rewrite firstn_nil.
  - now rewrite IH.
Qed.

(** X17. list_users(skip, limit) with skip >= 0 and limit >= 0 returns
    at most limit rows, the rows of the User table from position skip
    on, in table order.  Consecutive pages join up: the page at skip of
    size limit followed by the page at skip + limit of size limit' is
    the page at skip of size limit + limit'.  A page that starts at or
    after the end of the table is empty, and the page at 0 whose size is
    at least the table's is the whole table. *)
Theorem list_users_pages (s : Session) (skip limit : Z) :
  0 <= skip -> 0 <= limit ->
  (List.length (list_users s skip limit) <= Z.to_nat limit)%nat
  /\ (exists before after,
         users s = before ++ list_users s skip limit ++ after /\
         List.length before = Nat.min (Z.to_nat skip) (List.length (users s)))
  /\ (forall limit', 0 <= limit' ->
        list_users s skip limit ++ list_users s (skip + limit) limit'
        = list_users s skip (limit + limit'))
  /\ (Z.of_nat (List.length (users s)) <= skip -> list_users s skip limit = [])
  /\ (Z.of_nat (List.length (users s)) <= limit ->
      list_users s 0 limit = users s).
Proof.
  intros Hskip Hlimit. unfold list_users.
  assert (Hl : (limit <? 0) = false) by (apply Z.ltb_ge; lia).
  rewrite Hl. split; [|split; [|split; [|split]]].
  - apply firstn_le_length.
  - exists (firstn (Z.to_nat skip) (users s)),
           (skipn (Z.to_nat limit) (skipn (Z.to_nat skip) (users s))).
    split.
    + now rewrite firstn_skipn, firstn_skipn.
    + apply length_firstn.
  - intros limit' Hlimit'.
    assert (Hl' : (limit' <? 0) = false) by (apply Z.ltb_ge; lia).
    assert (Hl'' : (limit + limit' <? 0) = false) by (apply Z.ltb_ge; lia).
    rewrite Hl', Hl''. rewrite !Z2Nat.inj_add by lia.
    rewrite firstn_plus. f_equal.
    rewrite skipn_skipn. now rewrite Nat.add_comm.
  - intros Hend. rewrite skipn_all2; [now rewrite firstn_nil|]. lia.
  - intros Hall. simpl. apply firstn_all2. lia.
Qed.

Lemma list_users_pages_witness :
  list_users db_two_users 0 1 ++ list_users db_two_users (0 + 1) 5
  = list_users db_two_users 0 (1 + 5)
  /\ list_users db_two_users 2 1 = []
  /\ list_users db_two_users 0 1 = [alice]
  /\ list_users db_two_users 1 1 = [bob].
Proof.
  split; [|split; [|split; reflexivity]].
  - apply (proj1 (proj2 (proj2 (list_users_pages db_two_users 0 1
                                  ltac:(lia) ltac:(lia))))).
    lia.
  - apply (proj1 (proj2 (proj2 (proj2 (list_users_pages db_two_users 2 1
                                         ltac:(lia) ltac:(lia)))))).
    simpl. lia.
Defined.

(** X18. get_non_friends, whatever its name says, never looks at the
    Friend table: its result is the same whatever Friend rows the store
    holds.  Without a name, or with the empty name, it returns the whole
    User table in table order; with a name it returns User rows of the
    table only. *)
Theorem get_non_friends_ignores_friends (ilike : string -> string -> bool)
    (s : Session) (name : option string) :
  get_non_friends ilike s None = users s
  /\ get_non_friends ilike s (Some EmptyString) = users s
  /\ (forall l, get_non_friends ilike (set_friends l s) name
                = get_non_friends ilike s name)
  /\ (forall u, In u (get_non_friends ilike s name) -> In u (users s)).
Proof.
  split; [reflexivity|]. split; [reflexivity|]. split; [reflexivity|].
  intros u. unfold get_non_friends. destruct name as [n|]; [|auto].
  destruct (String.eqb n ""); [auto|]. intros H. now apply filter_In in H.
Qed.

Lemma get_non_friends_ignores_friends_witness :
  let ilike := fun value pattern : string =>
                 String.eqb pattern ("%" ++ value ++ "%") in
  get_non_friends ilike db_mutual (Some "Bob"%string) = [bob]
  /\ In bob (users db_mutual).
Proof.
  intros ilike. split; [reflexivity|].
  apply (proj2 (proj2 (proj2
           (get_non_friends_ignores_friends ilike db_mutual
              (Some "Bob"%string))))).
  now left.
Defined.

(** ** Stories and friendship *)

Lemma filter_filter {A : Type} (p q : A -> bool) (l : list A) :
  filter q (filter p l) = filter (fun x => p x && q x) l.
Proof.
  induction l as [|a l IH]; simpl; [reflexivity|].
  destruct (p a); simpl; [destruct (q a)|]; now rewrite IH.
Qed.

(** X19. create_story stores the expiry it is given: for a story without
    key it never fails, the story is stored last under a key no Story
    row had, and its owner is returned it at a time [now] if and only if
    [now] is before the stored expiry, whatever its created timestamp.
    Visibility only shrinks with time: what a user is returned at a
    later time is what the user was returned at an earlier time minus
    the stories that expired in between. *)
Theorem create_story_keeps_expiry (s : Session) (story : Story.t) :
  (Story.id story = None ->
   exists k,
     let story' := Story.set_id (Some k) story in
     let s' := set_stories (stories s ++ [story']) s in
     (forall x, In x (stories s) -> Story.id x <> Some k)
     /\ create_story s story = Return s' story'
     /\ Story.expires_at story' = Story.expires_at story
     /\ (forall now,
           In story' (get_stories_for_user s' now (Story.user_id story)) <->
           now < Story.expires_at story))
  /\ (forall t t' user_id,
        t <= t' ->
        get_stories_for_user s t' user_id
        = filter (fun st => t' <? Story.expires_at st)
                 (get_stories_for_user s t user_id)).
Proof.
  split.
  - intros Hid. exists (next_pk Story.id (stories s)). cbv zeta.
    split; [|split; [|split]].
    + intros x Hx Hk. pose proof (next_pk_above _ _ _ x _ Hx Hk). lia.
    + unfold create_story. now rewrite insert_generated.
    + reflexivity.
    + intros now. rewrite get_stories_for_user_In. simpl. split.
      * now intros (_ & _ & H).
      * intros H. split; [apply in_or_app; right; now left|]. auto.
  - intros t t' user_id Hle. unfold get_stories_for_user.
    rewrite filter_filter. apply filter_ext. intros st.
    destruct (in_ _ _); simpl; [|reflexivity].
    destruct (t' <? Story.expires_at st) eqn:H1.
    + apply Z.ltb_lt in H1. rewrite andb_true_r. symmetry.
      apply Z.ltb_lt. lia.
    + now rewrite andb_false_r.
Qed.

Lemma create_story_keeps_expiry_witness :
  (exists k,
      let story := Story.mk None 1 "http://m/3.png" "image" 500 100 in
      let story' := Story.set_id (Some k) story in
      let s' := set_stories (stories db_story ++ [story']) db_story in
      (forall x, In x (stories db_story) -> Story.id x <> Some k)
      /\ create_story db_story story = Return s' story'
      /\ Story.expires_at story' = Story.expires_at story
      /\ (forall now,
            In story' (get_stories_for_user s' now (Story.user_id story)) <->
            now < Story.expires_at story))
  /\ get_stories_for_user db_story 60 1
     = filter (fun st => 60 <? Story.expires_at st)
              (get_stories_for_user db_story 50 1).
Proof.
  split.
  - apply (proj1 (create_story_keeps_expiry db_story
                    (Story.mk None 1 "http://m/3.png" "image" 500 100))).
    reflexivity.
  - apply (proj2 (create_story_keeps_expiry db_story
                    (Story.mk None 1 "http://m/3.png" "image" 500 100))).
    lia.
Defined.

(** X20. Story visibility applies to the Friend table the one-way
    conditions of the where-clause of get_friends: a story that has not
    expired, owned by somebody else, is returned to a user if and only
    if some Friend row meets those conditions for that user and a User
    row of the owner. *)
Theorem stories_use_get_friends_conditions (s : Session) (now : datetime)
    (user_id : Z) (story : Story.t) (owner : User.t) :
  In story (stories s) -> now < Story.expires_at story ->
  Story.user_id story <> user_id ->
  User.id owner = Some (Story.user_id story) ->
  (In story (get_stories_for_user s now user_id) <->
   exists f, In f (friends s) /\ get_friends_where user_id owner f = true).
Proof.
  intros Hst Hlive Hother Hid.
  rewrite get_stories_for_user_In. split.
  - intros (_ & [Hme|(f & Hf & H1 & H2 & H3)] & _); [contradiction|].
    exists f. split; [assumption|]. apply get_friends_where_true.
    repeat split; auto. congruence.
  - intros (f & Hf & Hw). apply get_friends_where_true in Hw as (H1 & H2 & H3).
    split; [assumption|]. split; [|assumption]. right. exists f.
    repeat split; auto. congruence.
Qed.

Lemma stories_use_get_friends_conditions_witness :
  let story := Story.mk (Some 1) 2 "http://m/2.png" "image" 0 100 in
  In story (get_stories_for_user db_story 50 1)
  /\ ~ In story (get_stories_for_user db_story 50 3)
  /\ (In story (get_stories_for_user db_story 50 1) <->
      exists f, In f (friends db_story) /\ get_friends_where 1 bob f = true).
Proof.
  split; [now left|]. split; [intros []|].
  apply (stories_use_get_friends_conditions db_story 50 1
           (Story.mk (Some 1) 2 "http://m/2.png" "image" 0 100) bob).
  - now left.
  - reflexivity.
  - discriminate.
  - reflexivity.
Defined.

(** * Properties of the route handlers *)

(** X21. POST /users/{user_id}/friends/{friend_id} refuses a request to
    oneself with status 400 before it reaches the service, refuses with
    400 a request whose direction already has a Friend row, and
    otherwise answers 201 after the service stored the pending row; a
    refusal leaves the store unchanged.  So the handler never stores a
    Friend row from a user to itself, and no other service call stores
    or produces one either. *)
Theorem send_route_rejects_self (s : Session) (user_id friend_id : Z) :
  (user_id = friend_id ->
   user_route.send_friend_request s user_id friend_id
   = Return s (HTTPException 400 "Cannot send friend request to yourself"))
  /\ (user_id <> friend_id ->
      (exists f, In f (friends s) /\ direction f = (user_id, friend_id)) ->
      user_route.send_friend_request s user_id friend_id
      = Return s (HTTPException 400
                    "Friend request already exists or users not found"))
  /\ (user_id <> friend_id ->
      (forall f, In f (friends s) -> direction f <> (user_id, friend_id)) ->
      exists s',
        send_friend_request s user_id friend_id = Return s' true /\
        user_route.send_friend_request s user_id friend_id
        = Return s' (Answer 201
                       (mkActionResponse true
                          (Some "Friend request sent successfully"%string))))
  /\ (no_self_row s ->
      no_self_row
        (db_after (user_route.send_friend_request s user_id friend_id) s))
  /\ (forall c, (forall k, c <> SendFriendRequest k k) ->
                no_self_row s -> no_self_row (run c s)).
Proof.
  assert (Hrun : forall c, (forall k, c <> SendFriendRequest k k) ->
                           no_self_row s -> no_self_row (run c s)).
  { intros c Hc Hs f Hf.
    apply friends_step in Hf as [Hf|[[_ ->]|(_ & _ & r & Hr & _ & ->)]].
    - now apply Hs.
    - intros Heq. apply (Hc (Friend.user_id f)). now rewrite <- Heq.
    - simpl. now apply Hs. }
  split; [|split; [|split; [|split]]].
  - intros ->. unfold user_route.send_friend_request.
    now rewrite Z.eqb_refl.
  - intros Hne (f & Hf & Hdir). unfold user_route.send_friend_request.
    apply Z.eqb_neq in Hne. rewrite Hne. injection Hdir as H1 H2.
    now rewrite (send_friend_request_dup s _ _ f Hf H1 H2).
  - intros Hne Hno. unfold user_route.send_friend_request.
    apply Z.eqb_neq in Hne. rewrite Hne.
    rewrite send_friend_request_new.
    + eexists. split; reflexivity.
    + intros f Hf [H1 H2]. apply (Hno f Hf). unfold direction. congruence.
  - intros Hs. unfold user_route.send_friend_request.
    destruct (user_id =? friend_id) eqn:Hne; [exact Hs|].
    apply Z.eqb_neq in Hne.
    assert (Hsvc : no_self_row (run (SendFriendRequest user_id friend_id) s)).
    { apply Hrun; [|assumption]. intros k [= -> ->]. now apply Hne. }
    simpl in Hsvc.
    destruct (send_friend_request s user_id friend_id) as [db [|]|];
      simpl in *; assumption.
  - exact Hrun.
Qed.

Lemma send_route_rejects_self_witness :
  user_route.send_friend_request db_one_way 2 2
  = Return db_one_way
      (HTTPException 400 "Cannot send friend request to yourself")
  /\ user_route.send_friend_request db_one_way 1 2
     = Return db_one_way
         (HTTPException 400 "Friend request already exists or users not found")
  /\ (exists s',
         send_friend_request db_one_way 2 1 = Return s' true /\
         user_route.send_friend_request db_one_way 2 1
         = Return s' (Answer 201
                        (mkActionResponse true
                           (Some "Friend request sent successfully"%string))))
  /\ no_self_row (db_after (user_route.send_friend_request db_one_way 2 2)
                           db_one_way).
Proof.
  assert (Hs : no_self_row db_one_way).
  { intros f [<-|[]]. discriminate. }
  split; [|split; [|split]].
  - now apply (proj1 (send_route_rejects_self db_one_way 2 2)).
  - apply (proj1 (proj2 (send_route_rejects_self db_one_way 1 2))).
    + lia.
    + eexists. split; [now left|reflexivity].
  - apply (proj1 (proj2 (proj2 (send_route_rejects_self db_one_way 2 1)))).
    + lia.
    + intros f [<-|[]]. discriminate.
  - now apply (proj1 (proj2 (proj2 (proj2
                 (send_route_rejects_self db_one_way 2 2))))).
Defined.

(** X22. The accept, reject and remove handlers answer 404 and leave the
    store unchanged exactly when the service finds no row: no pending
    row friend_id -> user_id for accept and reject, no accepted row
    between the two ids for remove.  Otherwise they answer 200 with
    ok = true after the service call returned true. *)
Theorem friend_routes_not_found (s : Session) (user_id friend_id : Z) :
  let pending_row :=
    exists r, In r (friends s) /\ direction r = (friend_id, user_id) /\
              Friend.status r = pending in
  let accepted_row :=
    exists r, In r (friends s) /\
              (direction r = (user_id, friend_id) \/
               direction r = (friend_id, user_id)) /\
              Friend.status r = accepted in
  (pending_row ->
   (exists s' m,
       accept_friend_request s user_id friend_id = Return s' true /\
       user_route.accept_friend_request s user_id friend_id
       = Return s' (Answer 200 (mkActionResponse true m)))
   /\ (exists s' m,
          reject_friend_request s user_id friend_id = Return s' true /\
          user_route.reject_friend_request s user_id friend_id
          = Return s' (Answer 200 (mkActionResponse true m))))
  /\ (~ pending_row ->
      user_route.accept_friend_request s user_id friend_id
      = Return s (HTTPException 404 "Friend request not found")
      /\ user_route.reject_friend_request s user_id friend_id
         = Return s (HTTPException 404 "Friend request not found"))
  /\ (accepted_row ->
      exists s' m,
        remove_friend s user_id friend_id = Return s' true /\
        user_route.remove_friend s user_id friend_id
        = Return s' (Answer 200 (mkActionResponse true m)))
  /\ (~ accepted_row ->
      user_route.remove_friend s user_id friend_id
      = Return s (HTTPException 404 "Friendship not found")).
Proof.
  cbv zeta.
  unfold user_route.accept_friend_request, user_route.reject_friend_request,
    user_route.remove_friend, accept_friend_request, reject_friend_request,
    remove_friend, direction.
  split; [|split; [|split]].
  - intros (r & Hr & Hdir & Hst). injection Hdir as H1 H2.
    destruct (pending_lookup s user_id friend_id)
      as [(r' & -> & _)|[_ Hno]].
    + split; eexists; eexists; split; reflexivity.
    + exfalso. apply (Hno r Hr). auto.
  - intros Hno.
    destruct (pending_lookup s user_id friend_id)
      as [(r' & _ & Hr' & H1 & H2 & Hst)|[-> _]].
    + exfalso. apply Hno. exists r'. repeat split; auto. congruence.
    + split; reflexivity.
  - intros (r & Hr & Hdir & Hst).
    destruct (accepted_lookup s user_id friend_id)
      as [(r' & -> & _)|[_ Hno]].
    + eexists. eexists. split; reflexivity.
    + exfalso. apply (Hno r Hr). split; [|assumption].
      destruct Hdir as [[= H1 H2]|[= H1 H2]]; auto.
  - intros Hno.
    destruct (accepted_lookup s user_id friend_id)
      as [(r' & _ & Hr' & Hdir & Hst)|[-> _]].
    + exfalso. apply Hno. exists r'. repeat split; auto.
      destruct Hdir as [[H1 H2]|[H1 H2]]; [left|right]; congruence.
    + reflexivity.
Qed.

Lemma friend_routes_not_found_witness :
  (user_route.accept_friend_request db_one_way 2 1
   = Return db_one_way (HTTPException 404 "Friend request not found")
   /\ user_route.reject_friend_request db_one_way 2 1
      = Return db_one_way (HTTPException 404 "Friend request not found"))
  /\ (exists s' m,
         remove_friend db_one_way 2 1 = Return s' true /\
         user_route.remove_friend db_one_way 2 1
         = Return s' (Answer 200 (mkActionResponse true m))).
Proof.
  split.
  - apply (proj1 (proj2 (friend_routes_not_found db_one_way 2 1))).
    intros (r & [<-|[]] & _ & Hst). discriminate.
  - apply (proj1 (proj2 (proj2 (friend_routes_not_found db_one_way 2 1)))).
    eexists. split; [now left|]. split; [now right|reflexivity].
Defined.

(** X23. POST /posts/{post_id}/comments does not use the post_id of its
    path: the comment is stored under the post_id of the request body,
    with no key of its own and the clock reading as created timestamp,
    and the handler always answers 201 with the generated key and the
    body's post_id.  When the two ids differ the comment is listed for
    the body's post and not for the path's.  The reply handler stores
    and answers the same for the same body. *)
Theorem add_comment_route_ignores_path (isoformat : datetime -> string)
    (str_e : string) (now : datetime) (s : Session) (post_id : Z)
    (comment : post_route.CommentCreate) :
  exists k,
    let created :=
      Comment.mk (Some k) (post_route.cc_post_id comment)
        (post_route.cc_user_id comment)
        (post_route.cc_parent_comment_id comment)
        (post_route.cc_content comment) now in
    let s' := set_comments (comments s ++ [created]) s in
    let answer :=
      Answer 201
        (post_route.mkCommentResponse k
           (post_route.cc_content comment) (post_route.cc_user_id comment)
           (post_route.cc_post_id comment)
           (post_route.cc_parent_comment_id comment) (isoformat now)) in
    (forall x, In x (comments s) -> Comment.id x <> Some k)
    /\ post_route.add_comment isoformat str_e now s post_id comment
       = Return s' answer
    /\ post_route.add_reply isoformat str_e now s comment = Return s' answer
    /\ In created (get_comments_for_post s' (post_route.cc_post_id comment))
    /\ (post_id <> post_route.cc_post_id comment ->
        ~ In created (get_comments_for_post s' post_id)).
Proof.
  exists (next_pk Comment.id (comments s)). cbv zeta.
  split; [|split; [|split; [|split]]].
  - intros x Hx Hk. pose proof (next_pk_above _ _ _ x _ Hx Hk). lia.
  - unfold post_route.add_comment, add_comment.
    now rewrite insert_generated.
  - unfold post_route.add_reply, add_reply.
    now rewrite insert_generated.
  - apply get_comments_for_post_In. simpl. split; [|reflexivity].
    apply in_or_app. right. now left.
  - intros Hne Hin. apply get_comments_for_post_In in Hin as [_ Hin].
    simpl in Hin. congruence.
Qed.

Example add_comment_route_sample :
  post_route.add_comment (fun _ => "t"%string) "" 40 db_comments 1
    (post_route.mkCommentCreate "hi" 2 2 None)
  = Return (set_comments
              (comments db_comments ++ [Comment.mk (Some 4) 2 2 None "hi" 40])
              db_comments)
           (Answer 201 (post_route.mkCommentResponse 4 "hi" 2 2 None "t")).
Proof. reflexivity. Qed.

(** X24. Each of the three DELETE handlers answers 404, the store
    unchanged, exactly when no row of its table has the key.  When a row
    has the key it answers 200, the rows with the key are gone and every
    other row of the table is still there, and the same DELETE sent
    again answers 404 and changes nothing. *)
Theorem delete_routes_second_call_404 (s : Session) (k : Z) :
  (((forall u, In u (users s) -> User.id u <> Some k) ->
    user_route.delete_user s k
    = Return s (HTTPException 404 "User not found"))
   /\ ((exists u, In u (users s) /\ User.id u = Some k) ->
       exists s',
         user_route.delete_user s k
         = Return s' (Answer 200 (mkActionResponse true
                                    (Some "User deleted successfully"%string)))
         /\ (forall x, In x (users s') <->
                       In x (users s) /\ User.id x <> Some k)
         /\ user_route.delete_user s' k
            = Return s' (HTTPException 404 "User not found")))
  /\ (((forall p, In p (posts s) -> Post.id p <> Some k) ->
       post_route.delete_post s k
       = Return s (HTTPException 404 "Post not found"))
      /\ ((exists p, In p (posts s) /\ Post.id p = Some k) ->
          exists s',
            post_route.delete_post s k
            = Return s' (Answer 200 (mkActionResponse true
                                       (Some "Post deleted successfully"%string)))
            /\ (forall x, In x (posts s') <->
                          In x (posts s) /\ Post.id x <> Some k)
            /\ post_route.delete_post s' k
               = Return s' (HTTPException 404 "Post not found")))
  /\ (((forall c, In c (comments s) -> Comment.id c <> Some k) ->
       post_route.delete_comment s k
       = Return s (HTTPException 404 "Comment not found"))
      /\ ((exists c, In c (comments s) /\ Comment.id c = Some k) ->
          exists s',
            post_route.delete_comment s k
            = Return s' (Answer 200 (mkActionResponse true
                                       (Some "Comment deleted successfully"%string)))
            /\ (forall x, In x (comments s') <->
                          In x (comments s) /\ Comment.id x <> Some k)
            /\ post_route.delete_comment s' k
               = Return s' (HTTPException 404 "Comment not found"))).
Proof.
  assert (Hrows : forall (row : Type) (pk : row -> option Z) (t : list row)
                         (r : row),
             pk r = Some k ->
             forall x, In x (delete pk r t) <-> In x t /\ pk x <> Some k).
  { intros row pk t r Hk x. unfold delete. rewrite Hk.
    rewrite filter_In, negb_true_iff. now rewrite (pk_is_false _ pk). }
  assert (Hmiss : forall (row : Type) (pk : row -> option Z) (t : list row),
             (forall x, In x t -> pk x <> Some k) ->
             find (pk_is pk k) t = None).
  { intros row pk t Hno. apply find_none_iff. intros x Hx.
    apply pk_is_false. now apply Hno. }
  assert (Hhit : forall (row : Type) (pk : row -> option Z) (t : list row),
             (exists x, In x t /\ pk x = Some k) ->
             exists r, find (pk_is pk k) t = Some r /\ pk r = Some k).
  { intros row pk t (x & Hx & Hk).
    destruct (find (pk_is pk k) t) as [r|] eqn:Hfind.
    - exists r. split; [reflexivity|].
      apply find_some in Hfind as [_ Hr]. now apply pk_is_true.
    - pose proof (find_none _ _ Hfind x Hx) as Hn.
      apply pk_is_false in Hn. contradiction. }
  split; [|split]; split.
  - intros Hno.
    unfold user_route.delete_user, delete_user, get_user_by_id.
    now rewrite (Hmiss _ User.id (users s) Hno).
  - intros Hex. destruct (Hhit _ User.id (users s) Hex) as (r & Hfind & Hk).
    unfold user_route.delete_user, delete_user, get_user_by_id.
    rewrite Hfind. eexists. split; [reflexivity|]. simpl.
    split; [now apply Hrows|].
    rewrite Hmiss; [reflexivity|].
    intros x Hx. now apply (Hrows _ User.id (users s) r Hk) in Hx.
  - intros Hno. unfold post_route.delete_post, delete_post, get.
    now rewrite (Hmiss _ Post.id (posts s) Hno).
  - intros Hex. destruct (Hhit _ Post.id (posts s) Hex) as (r & Hfind & Hk).
    unfold post_route.delete_post, delete_post, get.
    rewrite Hfind. eexists. split; [reflexivity|]. simpl.
    split; [now apply Hrows|].
    rewrite Hmiss; [reflexivity|].
    intros x Hx. now apply (Hrows _ Post.id (posts s) r Hk) in Hx.
  - intros Hno. unfold post_route.delete_comment, delete_comment, get.
    now rewrite (Hmiss _ Comment.id (comments s) Hno).
  - intros Hex.
    destruct (Hhit _ Comment.id (comments s) Hex) as (r & Hfind & Hk).
    unfold post_route.delete_comment, delete_comment, get.
    rewrite Hfind. eexists. split; [reflexivity|]. simpl.
    split; [now apply Hrows|].
    rewrite Hmiss; [reflexivity|].
    intros x Hx. now apply (Hrows _ Comment.id (comments s) r Hk) in Hx.
Qed.

Lemma delete_routes_second_call_404_witness :
  user_route.delete_user db_comments 7
  = Return db_comments (HTTPException 404 "User not found")
  /\ (exists s',
         post_route.delete_post db_comments 1
         = Return s' (Answer 200 (mkActionResponse true
                                    (Some "Post deleted successfully"%string)))
         /\ (forall x, In x (posts s') <->
                       In x (posts db_comments) /\ Post.id x <> Some 1)
         /\ post_route.delete_post s' 1
            = Return s' (HTTPException 404 "Post not found"))
  /\ (exists s',
         post_route.delete_comment db_comments 1
         = Return s' (Answer 200 (mkActionResponse true
                                    (Some "Comment deleted successfully"%string)))
         /\ (forall x, In x (comments s') <->
                       In x (comments db_comments) /\ Comment.id x <> Some 1)
         /\ post_route.delete_comment s' 1
            = Return s' (HTTPException 404 "Comment not found")).
Proof.
  split; [|split].
  - apply (proj1 (proj1 (delete_routes_second_call_404 db_comments 7))).
    simpl. intros u [<-|[<-|[]]]; discriminate.
  - apply (proj2 (proj1 (proj2 (delete_routes_second_call_404 db_comments 1)))).
    eexists. split; [now left|reflexivity].
  - apply (proj2 (proj2 (proj2 (delete_routes_second_call_404 db_comments 1)))).
    eexists. split; [now left|reflexivity].
Defined.

Lemma get_posts_for_user_is_own_timeline_witness :
  In (Post.mk (Some 4) 1 "d" None None 40 40) (get_posts_for_user db_posts 1)
  /\ In (Post.mk (Some 4) 1 "d" None None 40 40)
        (get_timeline_posts db_posts 1 [3]).
Proof.
  split; [now left|].
  apply (proj2 (proj2 (proj2 (get_posts_for_user_is_own_timeline db_posts 1)))).
  now left.
Defined.

Lemma comments_flat_oldest_first_witness :
  In (Comment.mk (Some 3) 1 1 (Some 1) "reply" 30)
     (get_replies_for_comment db_comments 1)
  /\ In (Comment.mk (Some 3) 1 1 (Some 1) "reply" 30)
        (get_comments_for_post db_comments 1).
Proof.
  split; [now left|].
  apply (proj2 (proj2 (proj2 (proj2
           (comments_flat_oldest_first db_comments 1 1))))
           (Comment.mk (Some 3) 1 1 (Some 1) "reply" 30)).
  now left.
Defined.

Lemma add_comment_route_ignores_path_witness :
  exists k,
    let created := Comment.mk (Some k) 2 2 None "hi" 40 in
    let s' := set_comments (comments db_comments ++ [created]) db_comments in
    In created (get_comments_for_post s' 2)
    /\ ~ In created (get_comments_for_post s' 1).
Proof.
  destruct (add_comment_route_ignores_path (fun _ => "t"%string) "" 40
              db_comments 1 (post_route.mkCommentCreate "hi" 2 2 None))
    as (k & _ & _ & _ & Hin & Hout).
  exists k. cbv zeta. split; [exact Hin|]. apply Hout. simpl. lia.
Defined.
